(** * getcreds: the credential enrollment client of keymaster

    A shallow embedding of [cmd/getcreds/main.go] and the properties of
    its enrollment protocol: key pair storage, login, certificate
    requests, failover over the candidate issuers, and the final write of
    the certificate.

    The Go code talks to three things outside itself: the file system,
    the network and a handful of library calls whose results the program
    cannot predict (the key generator, the YAML parser, the password
    prompt).  All three are gathered in a [World] of oracles that the
    functions read, and in a [State] that they thread: the file system,
    the list of file-system events, the requests sent, and the lines
    logged and printed.

    [buildGetCredRequestBasicAuth] is left out: its only call sits in
    the commented-out body of the failover loop, and with it goes the
    [-debug] flag that only this function reads. *)

From Stdlib Require Import ZArith NArith List String Ascii Lia.
From stdpp Require Import gmap strings list fin_maps.

Local Open Scope string_scope.
Local Open Scope list_scope.

(** ** Values of the Go program *)

(** A Go [error]; [None : option error] is the nil error. *)
Inductive error : Type :=
| errors_New (msg : string).

Definition Error (e : error) : string :=
  match e with errors_New msg => msg end.

(** What a library call hands back: a value, or an error. *)
Inductive res (A : Type) : Type :=
| Ok (a : A)
| Err (e : error).
Arguments Ok {A} a.
Arguments Err {A} e.

(** A byte slice; a nil slice is [None : option bytes]. *)
Abbreviation bytes := (list Byte.byte).

Definition bytes_of (s : string) : bytes := list_byte_of_string s.
Definition string_of (b : bytes) : string := string_of_list_byte b.

Record baseConfig : Type := { Gen_Cert_URLS : string }.
Record AppConfigFile : Type := { Base : baseConfig }.

Definition DEFAULT_KEYS_LOCATION : string := "/.ssh/".
Definition RSA_KEY_SIZE : Z := 2048.
Definition FILE_PREFIX : string := "fubar".

(** [user.User], with the two fields the program reads. *)
Record User : Type := { Username : string; HomeDir : string }.

(** Key material is opaque to the program: a key is known by what the
    encoding functions of the crypto libraries return on it. *)
Record ssh_PublicKey : Type := { ssh_MarshalAuthorizedKey : bytes }.

Record crypto_PublicKey : Type := {
  x509_MarshalPKIXPublicKey : res bytes;
  ssh_NewPublicKey : res ssh_PublicKey }.

(** [*rsa.PrivateKey], also used as the [crypto.Signer]. *)
Record rsa_PrivateKey : Type := {
  Public : crypto_PublicKey;
  x509_MarshalPKCS1PrivateKey : bytes }.

(** ** HTTP *)

Record Cookie : Type := { Name : string; Value : string }.

(** One part of a multipart form written by [CreateFormFile]. *)
Record FormFile : Type := {
  fieldname : string;
  filename : string;
  content : string }.

(** An [http.Request].  The multipart body is kept as its list of parts;
    the boundary string, which the library draws at random, is left out
    of the body and of the content type. *)
Record Request : Type := {
  Method : string;
  URL : string;
  BasicAuth : option (string * string);
  ContentType : option string;
  ReqCookies : list Cookie;
  Body : option (list FormFile) }.

(** An [http.Response]: [Cookies] is what [resp.Cookies()] returns, and
    [RespBody] with [RespBodyErr] what [ioutil.ReadAll(resp.Body)]
    returns. *)
Record Response : Type := {
  StatusCode : Z;
  Status : string;
  Cookies : list Cookie;
  RespBody : bytes;
  RespBodyErr : option error }.

Record tls_Config : Type := {
  RootCAs : option (list bytes);
  MinVersion : Z }.

Definition tls_VersionTLS12 : Z := 771.

(** ** The file system *)

Record File : Type := { mode : N; data : bytes }.

Abbreviation FS := (gmap string File).

(** The system calls behind the file operations of the program.
    [OpOpen p perm] is [OpenFile(p, O_CREATE|O_TRUNC, perm)], which both
    [os.Create] (with [perm = 0666]) and [ioutil.WriteFile] start with. *)
Inductive FsOp : Type :=
| OpRemove (p : string)
| OpOpen (p : string) (perm : N)
| OpChmod (p : string) (m : N)
| OpWrite (p : string) (d : bytes)
| OpStat (p : string)
| OpReadFile (p : string).

(** An event: the call, the error it returned, the file system after it. *)
Record FsEvent : Type := {
  ev_op : FsOp;
  ev_err : option error;
  ev_fs : FS }.

(** ** The world outside the program *)

Record World : Type := {
  (** the value of the [-config] flag *)
  flag_config : string;
  (** the process file-mode creation mask *)
  umask : N;
  (** a file-system call that fails although the file-system state
      allows it (permissions, full disk, ...): the error, and for a
      write the number of bytes that reached the file before it *)
  os_fault : FsOp -> option (nat * error);
  yaml_Unmarshal : bytes -> AppConfigFile * option error;
  user_Current : res User;
  gopass_GetPasswd : res bytes;
  filepath_Join : list string -> string;
  rsa_GenerateKey : res rsa_PrivateKey;
  (** [pem.EncodeToMemory] of a block with the given type and bytes *)
  pem_EncodeToMemory : string -> bytes -> bytes;
  (** the error of [url.Parse], which makes [http.NewRequest] fail *)
  url_Parse_err : string -> option error;
  (** one round trip of an [http.Client]; an [Err] is a transport
      error (refused connection, TLS failure, timeout).  An issuer is
      taken to answer by the request alone: the same request gets the
      same answer throughout a run *)
  client_Do : tls_Config -> Request -> res Response }.

(** ** The state threaded through the program *)

Record State : Type := {
  fs : FS;
  fs_events : list FsEvent;
  sent : list Request;
  logged : list string;
  stdout : list string }.

Definition Proc (A : Type) : Type := State -> A * State.

Definition ret {A} (a : A) : Proc A := fun st => (a, st).

Definition bind {A B} (c : Proc A) (k : A -> Proc B) : Proc B :=
  fun st => let (a, st') := c st in k a st'.

Notation "'let*' x ':=' c 'in' k" := (bind c (fun x => k))
  (at level 10, x pattern, c at level 100, k at level 200).
Notation "c ';;' k" := (bind c (fun _ => k))
  (at level 100, k at level 200, right associativity).

Definition log_Printf (line : string) : Proc unit :=
  fun st => (tt, {| fs := fs st; fs_events := fs_events st; sent := sent st;
                    logged := logged st ++ [line]; stdout := stdout st |}).

(** [log.Println(err)] *)
Definition log_Println (e : error) : Proc unit := log_Printf (Error e).

Definition fmt_Printf (text : string) : Proc unit :=
  fun st => (tt, {| fs := fs st; fs_events := fs_events st; sent := sent st;
                    logged := logged st; stdout := stdout st ++ [text] |}).

(** *** File-system calls *)

(** Permission bits, written in octal in the Go source. *)
Definition perm_0600 : N := 384.
Definition perm_0644 : N := 420.
Definition perm_0666 : N := 438.

Definition ENOENT : error := errors_New "no such file or directory".

Definition truncated (perm : N) (mask : N) (old : option File) : File :=
  match old with
  | Some f => {| mode := mode f; data := [] |}
  | None => {| mode := N.ldiff perm mask; data := [] |}
  end.

Definition appended (d : bytes) (f : File) : File :=
  {| mode := mode f; data := data f ++ d |}.

Definition fs_write (p : string) (d : bytes) (f : FS) : FS :=
  match f !! p with
  | Some fl => <[p := appended d fl]> f
  | None => f
  end.

(** One file-system call on the file system [f]. *)
Definition fs_step (w : World) (op : FsOp) (f : FS) : option error * FS :=
  match os_fault w op with
  | Some (n, e) =>
      match op with
      | OpWrite p d => (Some e, fs_write p (firstn n d) f)
      | _ => (Some e, f)
      end
  | None =>
      match op with
      | OpRemove p =>
          match f !! p with
          | Some _ => (None, delete p f)
          | None => (Some ENOENT, f)
          end
      | OpOpen p perm => (None, <[p := truncated perm (umask w) (f !! p)]> f)
      | OpChmod p m =>
          match f !! p with
          | Some fl => (None, <[p := {| mode := m; data := data fl |}]> f)
          | None => (Some ENOENT, f)
          end
      | OpWrite p d =>
          match f !! p with
          | Some _ => (None, fs_write p d f)
          | None => (Some ENOENT, f)
          end
      | OpStat p | OpReadFile p =>
          match f !! p with
          | Some _ => (None, f)
          | None => (Some ENOENT, f)
          end
      end
  end.

Definition syscall (w : World) (op : FsOp) : Proc (option error) :=
  fun st =>
    let (err, f') := fs_step w op (fs st) in
    (err, {| fs := f';
             fs_events := fs_events st ++ [{| ev_op := op; ev_err := err; ev_fs := f' |}];
             sent := sent st; logged := logged st; stdout := stdout st |}).

Definition os_Remove (w : World) (p : string) : Proc (option error) :=
  syscall w (OpRemove p).

(** [os.Create]: create or truncate, mode 0666 before umask. *)
Definition os_Create (w : World) (p : string) : Proc (option error) :=
  syscall w (OpOpen p perm_0666).

Definition File_Chmod (w : World) (p : string) (m : N) : Proc (option error) :=
  syscall w (OpChmod p m).

Definition File_Write (w : World) (p : string) (d : bytes) : Proc (option error) :=
  syscall w (OpWrite p d).

(** [ioutil.WriteFile]: open with create and truncate, write, close. *)
Definition ioutil_WriteFile (w : World) (p : string) (d : bytes) (perm : N)
  : Proc (option error) :=
  let* err := syscall w (OpOpen p perm) in
  match err with
  | Some e => ret (Some e)
  | None => File_Write w p d
  end.

(** [os.IsNotExist] of the error of [os.Stat]. *)
Definition stat_IsNotExist (w : World) (p : string) (f : FS) : bool :=
  match os_fault w (OpStat p), f !! p with
  | None, None => true
  | _, _ => false
  end.

Definition ioutil_ReadFile (w : World) (p : string) (f : FS) : res bytes :=
  match os_fault w (OpReadFile p), f !! p with
  | Some (_, e), _ => Err e
  | None, None => Err ENOENT
  | None, Some fl => Ok (data fl)
  end.

(** ** The program *)

Section Program.

Variable w : World.

Definition getUserHomeDir (usr : User) : string * option error :=
  (HomeDir usr, None).

(** [genKeyPair]: the private key goes to [privateKeyPath] as PEM, the
    public key to [privateKeyPath + ".pub"] as an authorized-key line.
    The errors of the two [os.Remove] calls are dropped, as in the Go
    code; [pem.Encode] on the open file is the write of the bytes that
    [pem.EncodeToMemory] gives; the deferred [Close] changes nothing
    that the model holds. *)
Definition genKeyPair (privateKeyPath : string)
  : Proc (option rsa_PrivateKey * string * option error) :=
  match rsa_GenerateKey w with
  | Err err => ret (None, "", Some err)
  | Ok privateKey =>
      let pubKeyPath := privateKeyPath +:+ ".pub" in
      os_Remove w privateKeyPath ;;
      os_Remove w pubKeyPath ;;
      let* err := os_Create w privateKeyPath in
      match err with
      | Some e => log_Printf "Failed to save privkey" ;; ret (None, "", Some e)
      | None =>
          let* err := File_Chmod w privateKeyPath perm_0600 in
          match err with
          | Some e => log_Printf "Failed to change file mode" ;; ret (None, "", Some e)
          | None =>
              let privateKeyPEM :=
                pem_EncodeToMemory w "RSA PRIVATE KEY"
                  (x509_MarshalPKCS1PrivateKey privateKey) in
              let* err := File_Write w privateKeyPath privateKeyPEM in
              match err with
              | Some e => ret (None, "", Some e)
              | None =>
                  match ssh_NewPublicKey (Public privateKey) with
                  | Err e => ret (None, "", Some e)
                  | Ok pub =>
                      let* err := ioutil_WriteFile w pubKeyPath
                                    (ssh_MarshalAuthorizedKey pub) perm_0644 in
                      ret (Some privateKey, pubKeyPath, err)
                  end
              end
          end
      end
  end.

Definition zero_config : AppConfigFile := {| Base := {| Gen_Cert_URLS := "" |} |}.

(** [loadVerifyConfigFile] only reads the file system. *)
Definition loadVerifyConfigFile (configFilename : string) (f : FS)
  : AppConfigFile * option error :=
  let config := zero_config in
  if stat_IsNotExist w configFilename f then
    (config, Some (errors_New "mising config file failure"))
  else
    match ioutil_ReadFile w configFilename f with
    | Err _ => (config, Some (errors_New "cannot read config file"))
    | Ok source =>
        let (config, err) := yaml_Unmarshal w source in
        match err with
        | Some _ => (config, Some (errors_New "Cannot parse config file"))
        | None =>
            if (String.length (Gen_Cert_URLS (Base config)) <? 1)%nat then
              (config, Some (errors_New "Invalid Config file... no place get the certs"))
            else (config, None)
        end
    end.

(** [http.NewRequest] with a nil body. *)
Definition http_NewRequest (method urlStr : string) (body : option (list FormFile))
  : res Request :=
  match url_Parse_err w urlStr with
  | Some e => Err e
  | None => Ok {| Method := method; URL := urlStr; BasicAuth := None;
                  ContentType := None; ReqCookies := []; Body := body |}
  end.

Definition Header_Set_ContentType (contentType : string) (req : Request) : Request :=
  {| Method := Method req; URL := URL req; BasicAuth := BasicAuth req;
     ContentType := Some contentType; ReqCookies := ReqCookies req;
     Body := Body req |}.

Definition SetBasicAuth (userName password : string) (req : Request) : Request :=
  {| Method := Method req; URL := URL req; BasicAuth := Some (userName, password);
     ContentType := ContentType req; ReqCookies := ReqCookies req;
     Body := Body req |}.

Definition AddCookie (req : Request) (c : Cookie) : Request :=
  {| Method := Method req; URL := URL req; BasicAuth := BasicAuth req;
     ContentType := ContentType req; ReqCookies := ReqCookies req ++ [c];
     Body := Body req |}.

Definition FormDataContentType : string := "multipart/form-data".

(** [createKeyBodyRequest].  Its writes go to a buffer in memory and
    cannot fail, so of its three error returns only the one of
    [http.NewRequest] is left. *)
Definition createKeyBodyRequest (method urlStr filedata : string)
  : option Request * option error :=
  let bodyBuf :=
    [ {| fieldname := "pubkeyfile"; filename := "somefilename.pub";
         content := filedata |} ] in
  let contentType := FormDataContentType in
  match http_NewRequest method urlStr (Some bodyBuf) with
  | Err err => (None, Some err)
  | Ok req => (Some (Header_Set_ContentType contentType req), None)
  end.

(** [client.Do(req)]: the request goes out and the answer comes back. *)
Definition Do (tlsConfig : tls_Config) (req : Request) : Proc (res Response) :=
  fun st => (client_Do w tlsConfig req,
             {| fs := fs st; fs_events := fs_events st; sent := sent st ++ [req];
                logged := logged st; stdout := stdout st |}).

Definition ioutil_ReadAll (resp : Response) : option bytes * option error :=
  (Some (RespBody resp), RespBodyErr resp).

(** [doCertRequest], on the client built with [tlsConfig].  In the
    branch of a status other than 200 the Go code returns its variable
    [err], which holds the nil error of the [client.Do] call above it. *)
Definition doCertRequest (tlsConfig : tls_Config) (authCookies : list Cookie)
    (url filedata : string) : Proc (option bytes * option error) :=
  match createKeyBodyRequest "POST" url filedata with
  | (_, Some err) => ret (None, Some err)
  | (None, None) => ret (None, None) (* not returned by [createKeyBodyRequest] *)
  | (Some req, None) =>
      let req := fold_left AddCookie authCookies req in
      let* r := Do tlsConfig req in
      match r with
      | Err err =>
          log_Printf "Failure to do x509 req" ;; ret (None, Some err)
      | Ok resp =>
          let err : option error := None in
          if negb (StatusCode resp =? 200)%Z then
            log_Printf ("got error from call " +:+ Status resp) ;;
            ret (None, err)
          else ret (ioutil_ReadAll resp)
      end
  end.

(** [getCertsFromServer]: login, then the X.509 request, then the SSH
    request.  As in [doCertRequest], the return in the branch of a login
    status other than 200 carries the nil error of [client.Do]. *)
Definition getCertsFromServer (signer : rsa_PrivateKey) (userName : string)
    (password : bytes) (baseUrl : string) (tlsConfig : tls_Config)
  : Proc (option bytes * option bytes * option error) :=
  let loginUrl := baseUrl +:+ "/api/v0/login" in
  match http_NewRequest "POST" loginUrl None with
  | Err err => ret (None, None, Some err)
  | Ok req =>
      let req := SetBasicAuth userName (string_of password) req in
      let* r := Do tlsConfig req in
      match r with
      | Err err =>
          log_Printf "got error from req" ;;
          log_Println err ;;
          ret (None, None, Some err)
      | Ok loginResp =>
          let err : option error := None in
          if negb (StatusCode loginResp =? 200)%Z then
            log_Printf ("got error from call " +:+ Status loginResp) ;;
            ret (None, None, err)
          else if (length (Cookies loginResp) <? 1)%nat then
            ret (None, None, Some (errors_New "No cookies from login"))
          else
            let pubKey := Public signer in
            match x509_MarshalPKIXPublicKey pubKey with
            | Err err => ret (None, None, Some err)
            | Ok derKey =>
                let pemKey := string_of (pem_EncodeToMemory w "PUBLIC KEY" derKey) in
                let* (x509Cert, err) :=
                  doCertRequest tlsConfig (Cookies loginResp)
                    (baseUrl +:+ "/certgen/" +:+ userName +:+ "?type=x509") pemKey in
                match err with
                | Some e => ret (None, None, Some e)
                | None =>
                    match ssh_NewPublicKey pubKey with
                    | Err err => ret (None, None, Some err)
                    | Ok sshPub =>
                        let sshAuthFile := string_of (ssh_MarshalAuthorizedKey sshPub) in
                        let* (sshCert, err) :=
                          doCertRequest tlsConfig (Cookies loginResp)
                            (baseUrl +:+ "/certgen/" +:+ userName +:+ "?type=ssh")
                            sshAuthFile in
                        match err with
                        | Some e => ret (None, None, Some e)
                        | None => ret (sshCert, x509Cert, None)
                        end
                    end
                end
            end
      end
  end.

(** The [for ... range targetUrls] loop of [getCertFromTargetUrls]: its
    result is the pair of the variables [cert] and [success] when the
    loop is left, by [break] or at the end of the list. *)
Fixpoint range_targetUrls (signer : rsa_PrivateKey) (userName : string)
    (password : bytes) (tlsConfig : tls_Config) (targetUrls : list string)
  : Proc (option bytes * bool) :=
  match targetUrls with
  | [] => ret (None, false)
  | baseUrl :: rest =>
      let targetUrl := baseUrl +:+ userName in
      log_Printf ("attempting to target '" +:+ targetUrl +:+ "'") ;;
      let* (sshCert, _, err) :=
        getCertsFromServer signer userName password baseUrl tlsConfig in
      match err with
      | Some e =>
          log_Println e ;;
          range_targetUrls signer userName password tlsConfig rest
      | None => ret (sshCert, true)
      end
  end.

Definition getCertFromTargetUrls (signer : rsa_PrivateKey)
    (pubKeyFilename userName : string) (password : bytes)
    (targetUrls : list string) (rootCAs : option (list bytes))
  : Proc (option bytes * option error) :=
  let tlsConfig := {| RootCAs := rootCAs; MinVersion := tls_VersionTLS12 |} in
  let* (cert, success) :=
    range_targetUrls signer userName password tlsConfig targetUrls in
  if negb success then
    log_Printf "failed to get creds" ;;
    ret (None, Some (errors_New "Failed to get creds"))
  else ret (cert, None).

(** [getUserInfoAndCreds]; the password is only ever converted to a
    string, so its nil slice is kept as the empty one. *)
Definition getUserInfoAndCreds : Proc (option User * bytes * option error) :=
  match user_Current w with
  | Err err =>
      log_Printf "cannot get current user info" ;; ret (None, [], Some err)
  | Ok usr =>
      let userName := Username usr in
      fmt_Printf ("Password for " +:+ userName +:+ ": ") ;;
      match gopass_GetPasswd w with
      | Err err => ret (None, [], Some err)
      | Ok password => ret (Some usr, password, None)
      end
  end.

(** [strings.Split(s, sep)] for a separator of one byte. *)
Fixpoint strings_Split (s : string) (sep : ascii) : list string :=
  match s with
  | EmptyString => [EmptyString]
  | String c s' =>
      if Ascii.eqb c sep then EmptyString :: strings_Split s' sep
      else match strings_Split s' sep with
           | piece :: pieces => String c piece :: pieces
           | [] => [String c EmptyString]
           end
  end.

(** How the process ends: [main] returns (status 0), [log.Fatal]
    (status 1) or [panic] (status 2). *)
Inductive Exit : Type :=
| Returned
| Fatal (e : error)
| Panicked (e : error).

Definition exit_status (x : Exit) : Z :=
  match x with
  | Returned => 0
  | Fatal _ => 1
  | Panicked _ => 2
  end.

Definition log_Fatal (e : error) : Proc Exit :=
  log_Println e ;; ret (Fatal e).

(** What Go does when a nil pointer is dereferenced.  [main] would do
    so on a nil user or a nil signer returned with a nil error; neither
    [getUserInfoAndCreds] nor [genKeyPair] returns that. *)
Definition nil_dereference : Exit :=
  Panicked (errors_New "invalid memory address or nil pointer dereference").

Definition main : Proc Exit :=
  fun st0 =>
  let (config, err) := loadVerifyConfigFile (flag_config w) (fs st0) in
  match err with
  | Some e => (Panicked e, st0)
  | None =>
   (let* (usr, password, err) := getUserInfoAndCreds in
    match usr, err with
    | _, Some e => log_Fatal e
    | Some usr, None =>
        let userName := Username usr in
        let (homeDir, err) := getUserHomeDir usr in
        match err with
        | Some e => log_Fatal e
        | None =>
            let privateKeyPath := filepath_Join w [homeDir; "/.ssh/"; FILE_PREFIX] in
            let* (signer, pubKeyFilename, err) := genKeyPair privateKeyPath in
            match signer, err with
            | _, Some e => log_Fatal e
            | Some signer, None =>
                let* (cert, err) :=
                  getCertFromTargetUrls signer pubKeyFilename userName password
                    (strings_Split (Gen_Cert_URLS (Base config)) ",") None in
                match cert, err with
                | _, Some e => log_Fatal e
                | None, None =>
                    log_Fatal (errors_New "Could not get cert from any url")
                | Some cert, None =>
                    log_Printf "Success" ;;
                    let certPath := privateKeyPath +:+ "-cert.pub" in
                    os_Remove w certPath ;;
                    let* err := ioutil_WriteFile w certPath cert perm_0644 in
                    ret Returned
                end
            | None, None => ret nil_dereference
            end
        end
    | None, None => ret nil_dereference
    end) st0
  end.

End Program.

(** ** Concrete worlds

    Issuers, keys and file systems on which the program is run in the
    examples below. *)

Module Sample.

Definition alice : User := {| Username := "alice"; HomeDir := "/home/alice" |}.

Definition key : rsa_PrivateKey :=
  {| Public :=
       {| x509_MarshalPKIXPublicKey := Ok (bytes_of "PKIX");
          ssh_NewPublicKey :=
            Ok {| ssh_MarshalAuthorizedKey := bytes_of "ssh-rsa AAAA" |} |};
     x509_MarshalPKCS1PrivateKey := bytes_of "PKCS1" |}.

Definition session : list Cookie :=
  [ {| Name := "auth"; Value := "t0" |}; {| Name := "csrf"; Value := "t1" |} ].

Definition reply (code : Z) (status : string) (cookies : list Cookie)
    (body : string) : res Response :=
  Ok {| StatusCode := code; Status := status; Cookies := cookies;
        RespBody := bytes_of body; RespBodyErr := None |}.

Definition refused : res Response := Err (errors_New "connection refused").

(** An issuer at [base], given by its answers to the login, the X.509
    and the SSH request; other URLs at [base] fall through to [rest]. *)
Definition issuer (base : string) (login x509 ssh : res Response)
    (rest : Request -> res Response) (req : Request) : res Response :=
  if String.eqb (URL req) (base +:+ "/api/v0/login") then login
  else if String.eqb (URL req) (base +:+ "/certgen/alice?type=x509") then x509
  else if String.eqb (URL req) (base +:+ "/certgen/alice?type=ssh") then ssh
  else rest req.

Definition nobody (req : Request) : res Response := refused.

Definition login_ok : res Response := reply 200 "200 OK" session "".
Definition x509_ok : res Response := reply 200 "200 OK" [] "X509DATA".
Definition ssh_ok (body : string) : res Response := reply 200 "200 OK" [] body.

Definition no_fault (op : FsOp) : option (nat * error) := None.

(** A toy [filepath.Join] (no cleaning beyond the slashes of the
    elements that [main] joins) and a toy PEM armour. *)
Definition join (parts : list string) : string :=
  match parts with
  | [home; _; prefix] => home +:+ "/.ssh/" +:+ prefix
  | _ => String.concat "/" parts
  end.

Definition armour (type : string) (der : bytes) : bytes :=
  bytes_of ("-----BEGIN " +:+ type +:+ "-----") ++ der.

(** The configuration file holds the URL list itself. *)
Definition parse (source : bytes) : AppConfigFile * option error :=
  ({| Base := {| Gen_Cert_URLS := string_of source |} |}, None).

Definition world (mask : N) (fault : FsOp -> option (nat * error))
    (net : Request -> res Response) : World :=
  {| flag_config := "config.yml";
     umask := mask;
     os_fault := fault;
     yaml_Unmarshal := parse;
     user_Current := Ok alice;
     gopass_GetPasswd := Ok (bytes_of "secret");
     filepath_Join := join;
     rsa_GenerateKey := Ok key;
     pem_EncodeToMemory := armour;
     url_Parse_err := fun _ => None;
     client_Do := fun _ => net |}.

Definition disk (config : string) : FS :=
  {[ "config.yml" := {| mode := perm_0644; data := bytes_of config |} ]}.

Definition boot (config : string) : State :=
  {| fs := disk config; fs_events := []; sent := []; logged := []; stdout := [] |}.

Definition tls : tls_Config := {| RootCAs := None; MinVersion := tls_VersionTLS12 |}.

Definition forbidden : res Response := reply 403 "403 Forbidden" [] "".
Definition server_error : res Response :=
  reply 500 "500 Internal Server Error" [] "".

(** An issuer that answers every request well, with [cert] as its SSH
    certificate. *)
Definition healthy (base cert : string) (rest : Request -> res Response)
  : Request -> res Response :=
  issuer base login_ok x509_ok (ssh_ok cert) rest.

(** The networks of the examples: two candidates [https://a] and
    [https://b]; [b] is healthy, [a] varies. *)
Definition net_b : Request -> res Response := healthy "https://b" "CERT-B" nobody.

Definition net_healthy : Request -> res Response :=
  healthy "https://a" "CERT-A" net_b.

Definition net_x509_down : Request -> res Response :=
  issuer "https://a" login_ok refused (ssh_ok "CERT-A") net_b.

Definition net_x509_rejected : Request -> res Response :=
  issuer "https://a" login_ok server_error (ssh_ok "CERT-A") net_b.

Definition net_ssh_rejected : Request -> res Response :=
  issuer "https://a" login_ok x509_ok server_error net_b.

Definition net_login_forbidden : Request -> res Response :=
  issuer "https://a" forbidden x509_ok (ssh_ok "CERT-A") net_b.

(** The process runs with umask 022. *)
Definition mask : N := 18.

Definition secret : bytes := bytes_of "secret".

Definition keyPath : string := "/home/alice/.ssh/fubar".
Definition certPath : string := "/home/alice/.ssh/fubar-cert.pub".

(** The disk is full when the certificate is written. *)
Definition cert_write_fails (op : FsOp) : option (nat * error) :=
  match op with
  | OpWrite p _ =>
      if String.eqb p certPath
      then Some (0%nat, errors_New "no space left on device")
      else None
  | _ => None
  end.

(** The key material of [key], as the certificate requests carry it. *)
Definition pemKey : string := string_of (armour "PUBLIC KEY" (bytes_of "PKIX")).
Definition sshAuthFile : string := "ssh-rsa AAAA".

End Sample.

(** ** Processes that only talk to the network

    The login, the certificate requests and the failover loop touch
    neither the file system nor the standard output: they send requests
    and write log lines, and what they return does not depend on the
    state they start from.  Such a process is known by its run from the
    [quiet] state. *)

Definition emit (reqs : list Request) (lines : list string) (st : State) : State :=
  {| fs := fs st; fs_events := fs_events st; sent := sent st ++ reqs;
     logged := logged st ++ lines; stdout := stdout st |}.

Definition quiet : State :=
  {| fs := ∅; fs_events := []; sent := []; logged := []; stdout := [] |}.

Definition value_of {A} (c : Proc A) : A := fst (c quiet).
Definition requests_of {A} (c : Proc A) : list Request := sent (snd (c quiet)).
Definition lines_of {A} (c : Proc A) : list string := logged (snd (c quiet)).

Definition network_only {A} (c : Proc A) : Prop :=
  forall st, c st = (value_of c, emit (requests_of c) (lines_of c) st).

(** ** The failover loop, candidate by candidate *)

Section Attempt.

Variable w : World.
Variables (signer : rsa_PrivateKey) (userName : string) (password : bytes).
Variable tlsConfig : tls_Config.

(** The attempt on one candidate: what [getCertsFromServer] returns for
    it, the requests it sends and the lines the loop logs for it. *)
Definition attempt (baseUrl : string) : Proc (option bytes * option bytes * option error) :=
  getCertsFromServer w signer userName password baseUrl tlsConfig.

Definition attempt_cert (baseUrl : string) : option bytes :=
  fst (fst (value_of (attempt baseUrl))).

Definition attempt_error (baseUrl : string) : option error :=
  snd (value_of (attempt baseUrl)).

Definition attempt_requests (baseUrl : string) : list Request :=
  requests_of (attempt baseUrl).

Definition attempt_lines (baseUrl : string) : list string :=
  ["attempting to target '" +:+ (baseUrl +:+ userName) +:+ "'"]
  ++ lines_of (attempt baseUrl)
  ++ match attempt_error baseUrl with
     | Some e => [Error e]
     | None => []
     end.

(** The attempt ends with an error: the one case in which the loop
    goes on to the next candidate. *)
Definition attempt_fails (baseUrl : string) : Prop :=
  exists e, attempt_error baseUrl = Some e.

End Attempt.

(** ** The requests of the protocol

    The two kinds of request as the protocol describes them; the
    properties below compare them with what the program sends. *)

(** [POST {base}/api/v0/login] with the credentials as basic auth. *)
Definition loginRequest (userName : string) (password : bytes) (baseUrl : string)
  : Request :=
  {| Method := "POST";
     URL := baseUrl +:+ "/api/v0/login";
     BasicAuth := Some (userName, string_of password);
     ContentType := None;
     ReqCookies := [];
     Body := None |}.

(** [POST {base}/certgen/{identity}?type={certType}]: a multipart form
    with the one file field [pubkeyfile], and the session cookies. *)
Definition certgenRequest (baseUrl identity certType : string)
    (session : list Cookie) (keyMaterial : string) : Request :=
  {| Method := "POST";
     URL := baseUrl +:+ "/certgen/" +:+ identity +:+ "?type=" +:+ certType;
     BasicAuth := None;
     ContentType := Some "multipart/form-data";
     ReqCookies := session;
     Body := Some [ {| fieldname := "pubkeyfile";
                       filename := "somefilename.pub";
                       content := keyMaterial |} ] |}.

(** The key material that goes with a certificate type: the PEM of the
    PKIX public key for [x509], the authorized-key line for [ssh]. *)
Definition key_material (w : World) (signer : rsa_PrivateKey)
    (certType keyMaterial : string) : Prop :=
  (certType = "x509" /\
   exists derKey, x509_MarshalPKIXPublicKey (Public signer) = Ok derKey /\
     keyMaterial = string_of (pem_EncodeToMemory w "PUBLIC KEY" derKey))
  \/
  (certType = "ssh" /\
   exists sshPub, ssh_NewPublicKey (Public signer) = Ok sshPub /\
     keyMaterial = string_of (ssh_MarshalAuthorizedKey sshPub)).

(** A login answer that opens a session: status 200 and a cookie. *)
Definition opens_session (loginResp : Response) : Prop :=
  StatusCode loginResp = 200%Z /\ Cookies loginResp <> [].

(** The X.509 request is answered: no transport error, and a body read
    to its end when the status is 200. *)
Definition x509_answered (r : res Response) : Prop :=
  match r with
  | Ok resp => StatusCode resp = 200%Z -> RespBodyErr resp = None
  | Err _ => False
  end.

(** The failure returned after the candidates are exhausted reflects
    the attempts made, as an aggregated failure would: at the least,
    the number of attempts can be read off it. *)
Definition failure_reflects_attempts : Prop :=
  exists attempts_in : error -> nat,
    forall w signer pubKeyFilename userName password targetUrls rootCAs st e,
      Forall (attempt_fails w signer userName password
                {| RootCAs := rootCAs; MinVersion := tls_VersionTLS12 |}) targetUrls ->
      snd (fst (getCertFromTargetUrls w signer pubKeyFilename userName password
                  targetUrls rootCAs st)) = Some e ->
      attempts_in e = length targetUrls.

(** ** The file events of a run *)

(** The events that the process [c] adds when run from [st]. *)
Definition events_of {A} (c : Proc A) (st : State) : list FsEvent :=
  drop (length (fs_events st)) (fs_events (snd (c st))).

(** The read bits of group and others, 0044. *)
Definition group_or_world_readable (m : N) : bool :=
  negb (N.land m 36 =? 0)%N.

(** The event is a successful open (create or truncate) of [p]. *)
Definition opens (p : string) (ev : FsEvent) : bool :=
  match ev_op ev, ev_err ev with
  | OpOpen q _, None => String.eqb p q
  | _, _ => false
  end.

(** The event is a successful change of the mode of [p] to [m]. *)
Definition chmods (p : string) (m : N) (ev : FsEvent) : bool :=
  match ev_op ev, ev_err ev with
  | OpChmod q m', None => String.eqb p q && (m =? m')%N
  | _, _ => false
  end.

(** The events from the first one that passes [test] on. *)
Fixpoint since (test : FsEvent -> bool) (evs : list FsEvent) : list FsEvent :=
  match evs with
  | [] => []
  | ev :: rest => if test ev then ev :: rest else since test rest
  end.

Definition mode_at (p : string) (ev : FsEvent) : option N :=
  mode <$> ev_fs ev !! p.

Definition data_at (p : string) (ev : FsEvent) : option bytes :=
  data <$> ev_fs ev !! p.

(** The private key file holds no byte unless its mode is 0600. *)
Definition empty_or_0600 (p : string) (ev : FsEvent) : Prop :=
  forall fl, ev_fs ev !! p = Some fl -> data fl <> [] -> mode fl = perm_0600.

(** The private key file is never readable by group or others from its
    creation by [genKeyPair] on. *)
Definition never_readable_by_others (w : World) (privateKeyPath : string)
    (st : State) : Prop :=
  Forall (fun ev => forall m, mode_at privateKeyPath ev = Some m ->
                              group_or_world_readable m = false)
    (since (opens privateKeyPath) (events_of (genKeyPair w privateKeyPath) st)).

(** The private key file is there with mode 0600. *)
Definition locked (p : string) (f : FS) : Prop :=
  exists fl, f !! p = Some fl /\ mode fl = perm_0600.

(** ** The configuration file *)

(** There is no file under the name given by the [-config] flag. *)
Definition config_missing (w : World) (st : State) : Prop :=
  fs st !! flag_config w = None.

(** The file is read, and the YAML parser rejects its content. *)
Definition config_unparsable (w : World) (st : State) : Prop :=
  exists source e,
    ioutil_ReadFile w (flag_config w) (fs st) = Ok source /\
    snd (yaml_Unmarshal w source) = Some e.

(** The file is read and parsed, and its list of URLs is empty. *)
Definition config_without_urls (w : World) (st : State) : Prop :=
  exists source,
    ioutil_ReadFile w (flag_config w) (fs st) = Ok source /\
    Gen_Cert_URLS (Base (fst (yaml_Unmarshal w source))) = "".

(** ** What a process leaves alone *)

(** The path that a file-system call works on. *)
Definition op_path (op : FsOp) : string :=
  match op with
  | OpRemove p | OpOpen p _ | OpChmod p _ | OpWrite p _ | OpStat p | OpReadFile p => p
  end.

(** The process [c] never changes what the file system holds under [q]. *)
Definition untouched {A} (q : string) (c : Proc A) : Prop :=
  forall st, fs (snd (c st)) !! q = fs st !! q.

(** The process [c] sends no request. *)
Definition offline {A} (c : Proc A) : Prop :=
  forall st, sent (snd (c st)) = sent st.

(** The file [name] is read and parsed into [config], which lists some
    URL. *)
Definition config_accepted (w : World) (name : string) (f : gmap string File)
    (config : AppConfigFile) : Prop :=
  exists source,
    ioutil_ReadFile w name f = Ok source /\
    yaml_Unmarshal w source = (config, None) /\
    Gen_Cert_URLS (Base config) <> "".

(** The byte [sep] occurs in the string [s]. *)
Fixpoint occurs (sep : ascii) (s : string) : bool :=
  match s with
  | EmptyString => false
  | String c s' => Ascii.eqb c sep || occurs sep s'
  end.

(** What an attempt may write to the log: one of its two fixed
    messages, the status line of an answer, or the text of a transport
    error. *)
Definition reported (w : World) (tlsConfig : tls_Config) (line : string) : Prop :=
  line = "got error from req"
  \/ line = "Failure to do x509 req"
  \/ (exists req resp,
        client_Do w tlsConfig req = Ok resp /\
        line = "got error from call " +:+ Status resp)
  \/ (exists req e, client_Do w tlsConfig req = Err e /\ line = Error e).

(** ** More concrete worlds *)

Module Scenario.

Import Sample.

(** The home directory cannot be written: the private key file cannot
    be created. *)
Definition create_fails (op : FsOp) : option (nat * error) :=
  match op with
  | OpOpen p _ =>
      if String.eqb p keyPath
      then Some (0%nat, errors_New "permission denied")
      else None
  | _ => None
  end.

(** The current user is not known to the system. *)
Definition world_without_user : World :=
  {| flag_config := "config.yml";
     umask := mask;
     os_fault := no_fault;
     yaml_Unmarshal := parse;
     user_Current := Err (errors_New "user: unknown userid 1000");
     gopass_GetPasswd := Ok secret;
     filepath_Join := join;
     rsa_GenerateKey := Ok key;
     pem_EncodeToMemory := armour;
     url_Parse_err := fun _ => None;
     client_Do := fun _ => net_healthy |}.

(** A disk with the configuration and the files of an earlier run. *)
Definition used_disk : gmap string File :=
  <[ certPath := {| mode := perm_0644; data := bytes_of "OLD-CERT" |} ]>
  (<[ "/home/alice/.ssh/fubar.pub" := {| mode := perm_0644; data := bytes_of "OLD-PUB" |} ]>
   (<[ keyPath := {| mode := perm_0600; data := bytes_of "OLD-KEY" |} ]>
    (disk "https://a,https://b"))).

Definition reboot : State :=
  {| fs := used_disk; fs_events := []; sent := []; logged := []; stdout := [] |}.

End Scenario.

(** * Properties *)

(** ** Processes that only talk to the network: lemmas *)

Lemma emit_nil st : emit [] [] st = st.
Proof. destruct st; unfold emit; simpl. by rewrite !app_nil_r. Qed.

Lemma emit_emit r1 l1 r2 l2 st :
  emit r2 l2 (emit r1 l1 st) = emit (r1 ++ r2) (l1 ++ l2) st.
Proof. unfold emit; simpl. by rewrite !app_assoc. Qed.

Lemma network_only_ret {A} (a : A) : network_only (ret a).
Proof. intros st. unfold value_of, requests_of, lines_of, ret; simpl. by rewrite emit_nil. Qed.

Lemma network_only_log line : network_only (log_Printf line).
Proof.
  intros st. unfold log_Printf, emit, value_of, requests_of, lines_of; simpl.
  by rewrite app_nil_r.
Qed.

Lemma network_only_Do w tlsConfig req : network_only (Do w tlsConfig req).
Proof. intros st. unfold Do, emit, value_of, requests_of, lines_of; simpl. by rewrite app_nil_r. Qed.

Lemma bind_run {A B} (c : Proc A) (k : A -> Proc B) st :
  bind c k st = k (fst (c st)) (snd (c st)).
Proof. unfold bind. by destruct (c st). Qed.

Lemma network_only_bind {A B} (c : Proc A) (k : A -> Proc B) :
  network_only c -> (forall a, network_only (k a)) -> network_only (bind c k).
Proof.
  intros Hc Hk st.
  unfold value_of, requests_of, lines_of.
  rewrite !bind_run, (Hc st), (Hc quiet); simpl.
  rewrite (Hk (value_of c) (emit _ _ st)), (Hk (value_of c) (emit _ _ quiet)); simpl.
  rewrite emit_emit. reflexivity.
Qed.

(** The value, the requests and the lines of a sequence. *)
Lemma value_of_bind {A B} (c : Proc A) (k : A -> Proc B) :
  network_only c -> (forall a, network_only (k a)) ->
  value_of (bind c k) = value_of (k (value_of c)).
Proof.
  intros Hc Hk. unfold value_of at 1.
  rewrite bind_run, (Hc quiet); simpl. by rewrite Hk.
Qed.

Lemma requests_of_bind {A B} (c : Proc A) (k : A -> Proc B) :
  network_only c -> (forall a, network_only (k a)) ->
  requests_of (bind c k) = requests_of c ++ requests_of (k (value_of c)).
Proof.
  intros Hc Hk. unfold requests_of at 1.
  rewrite bind_run, (Hc quiet); simpl. by rewrite Hk.
Qed.

Lemma lines_of_bind {A B} (c : Proc A) (k : A -> Proc B) :
  network_only c -> (forall a, network_only (k a)) ->
  lines_of (bind c k) = lines_of c ++ lines_of (k (value_of c)).
Proof.
  intros Hc Hk. unfold lines_of at 1.
  rewrite bind_run, (Hc quiet); simpl. by rewrite Hk.
Qed.

Ltac network_only_step :=
  match goal with
  | |- network_only (ret _) => apply network_only_ret
  | |- network_only (log_Printf _) => apply network_only_log
  | |- network_only (log_Println _) => apply network_only_log
  | |- network_only (Do _ _ _) => apply network_only_Do
  | |- network_only (bind _ _) => apply network_only_bind; [| intros ?]
  | |- network_only (let _ := _ in _) => cbv zeta
  | |- network_only (match ?x with _ => _ end) => destruct x
  | |- network_only (if ?b then _ else _) => destruct b
  end.

Section Network.

Variable w : World.

Lemma doCertRequest_network_only tlsConfig authCookies url filedata :
  network_only (doCertRequest w tlsConfig authCookies url filedata).
Proof. unfold doCertRequest. repeat network_only_step. Qed.

Lemma getCertsFromServer_network_only signer userName password baseUrl tlsConfig :
  network_only (getCertsFromServer w signer userName password baseUrl tlsConfig).
Proof.
  unfold getCertsFromServer.
  repeat (network_only_step || apply doCertRequest_network_only).
Qed.

Lemma range_targetUrls_network_only signer userName password tlsConfig targetUrls :
  network_only (range_targetUrls w signer userName password tlsConfig targetUrls).
Proof.
  induction targetUrls as [| baseUrl rest IH]; simpl.
  - apply network_only_ret.
  - repeat (network_only_step || apply getCertsFromServer_network_only || apply IH).
Qed.

Lemma getCertFromTargetUrls_network_only signer pubKeyFilename userName password
    targetUrls rootCAs :
  network_only (getCertFromTargetUrls w signer pubKeyFilename userName password
                  targetUrls rootCAs).
Proof.
  unfold getCertFromTargetUrls.
  repeat (network_only_step || apply range_targetUrls_network_only).
Qed.

End Network.

(** ** The failover loop: lemmas *)

Section Failover.

Variable w : World.
Variables (signer : rsa_PrivateKey) (userName : string) (password : bytes).
Variable tlsConfig : tls_Config.

Local Abbreviation attempt := (attempt w signer userName password tlsConfig).
Local Abbreviation attempt_cert := (attempt_cert w signer userName password tlsConfig).
Local Abbreviation attempt_error := (attempt_error w signer userName password tlsConfig).
Local Abbreviation attempt_requests := (attempt_requests w signer userName password tlsConfig).
Local Abbreviation attempt_lines := (attempt_lines w signer userName password tlsConfig).
Local Abbreviation attempt_fails := (attempt_fails w signer userName password tlsConfig).

Lemma range_targetUrls_cons baseUrl rest st :
  range_targetUrls w signer userName password tlsConfig (baseUrl :: rest) st =
  match attempt_error baseUrl with
  | Some _ =>
      range_targetUrls w signer userName password tlsConfig rest
        (emit (attempt_requests baseUrl) (attempt_lines baseUrl) st)
  | None =>
      ((attempt_cert baseUrl, true),
       emit (attempt_requests baseUrl) (attempt_lines baseUrl) st)
  end.
Proof.
  unfold attempt_error, attempt_cert, attempt_requests, attempt_lines, attempt_error.
  simpl. rewrite !bind_run.
  rewrite (getCertsFromServer_network_only w signer userName password baseUrl tlsConfig
             (snd (log_Printf _ st))).
  fold (attempt baseUrl).
  destruct (value_of (attempt baseUrl)) as [[sshCert x509Cert] [e |]]; simpl.
  - rewrite bind_run. f_equal.
    unfold log_Println, log_Printf, emit; simpl. by rewrite <- !app_assoc.
  - unfold ret, emit; simpl. by rewrite app_nil_r, <- !app_assoc.
Qed.

(** Every candidate fails: the loop runs through the whole list. *)
Lemma range_targetUrls_exhausted targetUrls :
  Forall attempt_fails targetUrls ->
  forall st,
    range_targetUrls w signer userName password tlsConfig targetUrls st =
    ((None, false),
     emit (flat_map attempt_requests targetUrls) (flat_map attempt_lines targetUrls) st).
Proof.
  induction 1 as [| baseUrl rest [e He] _ IH]; intros st.
  - simpl. unfold ret. by rewrite emit_nil.
  - rewrite range_targetUrls_cons, He, IH, emit_emit. reflexivity.
Qed.

(** The loop stops at the first candidate whose attempt ends without an
    error, with the [sshCert] of that attempt. *)
Lemma range_targetUrls_first before baseUrl after :
  Forall attempt_fails before ->
  attempt_error baseUrl = None ->
  forall st,
    range_targetUrls w signer userName password tlsConfig
      (before ++ baseUrl :: after) st =
    ((attempt_cert baseUrl, true),
     emit (flat_map attempt_requests (before ++ [baseUrl]))
          (flat_map attempt_lines (before ++ [baseUrl])) st).
Proof.
  intros Hbefore Hok.
  induction Hbefore as [| v rest [e He] _ IH]; intros st.
  - simpl app. rewrite range_targetUrls_cons, Hok. simpl. by rewrite !app_nil_r.
  - simpl app. rewrite range_targetUrls_cons, He, IH, emit_emit. reflexivity.
Qed.

(** Any list splits at its first candidate whose attempt ends without
    an error, if there is one. *)
Lemma first_success_split targetUrls :
  Forall attempt_fails targetUrls \/
  exists before baseUrl after,
    targetUrls = before ++ baseUrl :: after /\
    Forall attempt_fails before /\ attempt_error baseUrl = None.
Proof.
  induction targetUrls as [| v rest IH].
  - left. constructor.
  - destruct (attempt_error v) as [e |] eqn:Hv.
    + destruct IH as [Hall | (before & u & after & -> & Hb & Hu)].
      * left. constructor; [by exists e | done].
      * right. exists (v :: before), u, after.
        split; [done |]. split; [| done]. constructor; [by exists e | done].
    + right. exists [], v, rest. by repeat split.
Qed.

End Failover.

(** ** One attempt: login and the two certificate requests *)

Section Candidate.

Variable w : World.
Variables (signer : rsa_PrivateKey) (userName : string) (password : bytes).
Variable tlsConfig : tls_Config.

Local Abbreviation attempt := (attempt w signer userName password tlsConfig).
Local Abbreviation attempt_requests := (attempt_requests w signer userName password tlsConfig).

Lemma fold_AddCookie cookies req :
  fold_left AddCookie cookies req =
  {| Method := Method req; URL := URL req; BasicAuth := BasicAuth req;
     ContentType := ContentType req; ReqCookies := ReqCookies req ++ cookies;
     Body := Body req |}.
Proof.
  revert req. induction cookies as [| c cookies IH]; intros req; simpl.
  - rewrite app_nil_r. by destruct req.
  - rewrite IH. simpl. by rewrite <- app_assoc.
Qed.

(** What [doCertRequest] does with a URL of the issuance endpoint. *)
Lemma doCertRequest_run authCookies baseUrl identity certType keyMaterial st :
  let url := baseUrl +:+ "/certgen/" +:+ identity +:+ "?type=" +:+ certType in
  let req := certgenRequest baseUrl identity certType authCookies keyMaterial in
  doCertRequest w tlsConfig authCookies url keyMaterial st =
  match url_Parse_err w url with
  | Some e => ((None, Some e), st)
  | None =>
      match client_Do w tlsConfig req with
      | Err e => ((None, Some e), emit [req] ["Failure to do x509 req"] st)
      | Ok resp =>
          if (StatusCode resp =? 200)%Z
          then (ioutil_ReadAll resp, emit [req] [] st)
          else ((None, None), emit [req] ["got error from call " +:+ Status resp] st)
      end
  end.
Proof.
  intros url req.
  unfold doCertRequest, createKeyBodyRequest, http_NewRequest. fold url.
  destruct (url_Parse_err w url) as [e |]; [reflexivity |].
  rewrite fold_AddCookie. simpl.
  change {| Method := "POST"; URL := url; BasicAuth := None;
            ContentType := Some FormDataContentType; ReqCookies := authCookies;
            Body := Some [ {| fieldname := "pubkeyfile"; filename := "somefilename.pub";
                              content := keyMaterial |} ] |} with req.
  rewrite bind_run. unfold Do at 1 2. simpl.
  destruct (client_Do w tlsConfig req) as [resp | e].
  - destruct (StatusCode resp =? 200)%Z; simpl.
    + unfold ret, emit; simpl. by rewrite app_nil_r.
    + rewrite bind_run. reflexivity.
  - rewrite bind_run. reflexivity.
Qed.

(** Once the login has opened a session, the attempt goes on with the
    X.509 request and then the SSH request. *)
Lemma attempt_with_session baseUrl loginResp derKey st :
  url_Parse_err w (baseUrl +:+ "/api/v0/login") = None ->
  client_Do w tlsConfig (loginRequest userName password baseUrl) = Ok loginResp ->
  opens_session loginResp ->
  x509_MarshalPKIXPublicKey (Public signer) = Ok derKey ->
  attempt baseUrl st =
  (let* (x509Cert, err) :=
     doCertRequest w tlsConfig (Cookies loginResp)
       (baseUrl +:+ "/certgen/" +:+ userName +:+ "?type=x509")
       (string_of (pem_EncodeToMemory w "PUBLIC KEY" derKey)) in
   match err with
   | Some e => ret (None, None, Some e)
   | None =>
       match ssh_NewPublicKey (Public signer) with
       | Err err => ret (None, None, Some err)
       | Ok sshPub =>
           let* (sshCert, err) :=
             doCertRequest w tlsConfig (Cookies loginResp)
               (baseUrl +:+ "/certgen/" +:+ userName +:+ "?type=ssh")
               (string_of (ssh_MarshalAuthorizedKey sshPub)) in
           match err with
           | Some e => ret (None, None, Some e)
           | None => ret (sshCert, x509Cert, None)
           end
       end
   end) (emit [loginRequest userName password baseUrl] [] st).
Proof.
  intros Hparse Hlogin [Hstatus Hcookies] Hder.
  unfold attempt, getCertsFromServer, http_NewRequest.
  rewrite Hparse.
  change (SetBasicAuth _ _ _) with (loginRequest userName password baseUrl).
  rewrite bind_run. unfold Do at 1 2. cbn [fst snd].
  rewrite Hlogin, Hstatus. simpl negb. cbv iota.
  assert ((length (Cookies loginResp) <? 1)%nat = false) as ->.
  { destruct (Cookies loginResp); [done | reflexivity]. }
  rewrite Hder. unfold emit. simpl. by rewrite app_nil_r.
Qed.

(** C3 (amended). After a login that opened a session, an X.509 request
    answered with a status other than 200 does not fail the candidate:
    the SSH request is still sent, and if it is answered with status
    200 its body is the certificate of the attempt.  An X.509 request
    that ends in a transport error does fail the candidate: the attempt
    returns that error and the SSH request is not sent. *)
Theorem x509_failure_and_the_candidate baseUrl loginResp derKey sshPub :
  url_Parse_err w (baseUrl +:+ "/api/v0/login") = None ->
  url_Parse_err w (baseUrl +:+ "/certgen/" +:+ userName +:+ "?type=x509") = None ->
  url_Parse_err w (baseUrl +:+ "/certgen/" +:+ userName +:+ "?type=ssh") = None ->
  client_Do w tlsConfig (loginRequest userName password baseUrl) = Ok loginResp ->
  opens_session loginResp ->
  x509_MarshalPKIXPublicKey (Public signer) = Ok derKey ->
  ssh_NewPublicKey (Public signer) = Ok sshPub ->
  let login := loginRequest userName password baseUrl in
  let x509Req :=
    certgenRequest baseUrl userName "x509" (Cookies loginResp)
      (string_of (pem_EncodeToMemory w "PUBLIC KEY" derKey)) in
  let sshReq :=
    certgenRequest baseUrl userName "ssh" (Cookies loginResp)
      (string_of (ssh_MarshalAuthorizedKey sshPub)) in
  (forall x509Resp,
      client_Do w tlsConfig x509Req = Ok x509Resp ->
      StatusCode x509Resp <> 200%Z ->
      attempt_requests baseUrl = [login; x509Req; sshReq] /\
      forall sshResp,
        client_Do w tlsConfig sshReq = Ok sshResp ->
        StatusCode sshResp = 200%Z ->
        RespBodyErr sshResp = None ->
        value_of (attempt baseUrl) = (Some (RespBody sshResp), None, None))
  /\
  (forall e,
      client_Do w tlsConfig x509Req = Err e ->
      value_of (attempt baseUrl) = (None, None, Some e) /\
      attempt_requests baseUrl = [login; x509Req]).
Proof.
  intros Hlogin_url Hx509_url Hssh_url Hlogin Hsession Hder Hpub login x509Req sshReq.
  pose proof (attempt_with_session baseUrl loginResp derKey quiet
                Hlogin_url Hlogin Hsession Hder) as Hrun.
  rewrite bind_run in Hrun.
  rewrite (doCertRequest_run (Cookies loginResp) baseUrl userName "x509") in Hrun.
  change (url_Parse_err w
            (baseUrl +:+ "/certgen/" +:+ userName +:+ "?type=" +:+ "x509") = None)
    in Hx509_url.
  change (url_Parse_err w
            (baseUrl +:+ "/certgen/" +:+ userName +:+ "?type=" +:+ "ssh") = None)
    in Hssh_url.
  cbv zeta in Hrun. rewrite Hx509_url in Hrun. fold x509Req login in Hrun.
  split.
  - intros x509Resp Hx509 Hstatus.
    rewrite Hx509 in Hrun.
    apply Z.eqb_neq in Hstatus. rewrite Hstatus in Hrun. simpl in Hrun.
    rewrite Hpub, bind_run in Hrun.
    rewrite (doCertRequest_run (Cookies loginResp) baseUrl userName "ssh") in Hrun.
    cbv zeta in Hrun. rewrite Hssh_url in Hrun. fold sshReq in Hrun.
    split.
    + unfold attempt_requests, requests_of. rewrite Hrun.
      destruct (client_Do w tlsConfig sshReq) as [sshResp | e]; simpl.
      * unfold ioutil_ReadAll.
        destruct (StatusCode sshResp =? 200)%Z, (RespBodyErr sshResp); reflexivity.
      * reflexivity.
    + intros sshResp Hssh Hok Hread.
      unfold value_of. rewrite Hrun, Hssh.
      apply Z.eqb_eq in Hok. rewrite Hok. simpl. by rewrite Hread.
  - intros e Hx509. rewrite Hx509 in Hrun. simpl in Hrun.
    unfold value_of, attempt_requests, requests_of. by rewrite Hrun.
Qed.

(** The requests of an attempt are the login request and, after it,
    certificate requests that carry the cookies of the login answer. *)
Lemma attempt_requests_shape baseUrl req :
  In req (attempt_requests baseUrl) ->
  req = loginRequest userName password baseUrl \/
  exists loginResp certType keyMaterial,
    client_Do w tlsConfig (loginRequest userName password baseUrl) = Ok loginResp /\
    key_material w signer certType keyMaterial /\
    req = certgenRequest baseUrl userName certType (Cookies loginResp) keyMaterial.
Proof.
  unfold attempt_requests, requests_of, attempt, getCertsFromServer, http_NewRequest.
  destruct (url_Parse_err w _) as [e |]; [intros [] |].
  change (SetBasicAuth _ _ _) with (loginRequest userName password baseUrl).
  rewrite bind_run. unfold Do at 1 2. cbn [fst snd].
  destruct (client_Do w tlsConfig (loginRequest userName password baseUrl))
    as [loginResp | e] eqn:Hlogin.
  2:{ simpl. intros [<- | []]. by left. }
  destruct (negb (StatusCode loginResp =? 200)%Z).
  { simpl. intros [<- | []]. by left. }
  destruct (length (Cookies loginResp) <? 1)%nat.
  { simpl. intros [<- | []]. by left. }
  destruct (x509_MarshalPKIXPublicKey (Public signer)) as [derKey | e] eqn:Hder.
  2:{ simpl. intros [<- | []]. by left. }
  assert (forall certType keyMaterial,
             key_material w signer certType keyMaterial ->
             forall r, r = certgenRequest baseUrl userName certType
                             (Cookies loginResp) keyMaterial ->
             r = loginRequest userName password baseUrl \/
             exists loginResp0 certType0 keyMaterial0,
               Ok loginResp = Ok loginResp0 /\
               key_material w signer certType0 keyMaterial0 /\
               r = certgenRequest baseUrl userName certType0
                     (Cookies loginResp0) keyMaterial0) as Hcert.
  { intros certType keyMaterial Hkey r ->. right. by exists loginResp, certType, keyMaterial. }
  assert (key_material w signer "x509"
            (string_of (pem_EncodeToMemory w "PUBLIC KEY" derKey))) as Hx509.
  { left. split; [done |]. by exists derKey. }
  rewrite bind_run.
  rewrite (doCertRequest_run (Cookies loginResp) baseUrl userName "x509").
  cbv zeta.
  destruct (url_Parse_err w _) as [e |].
  { simpl. intros [<- | []]. by left. }
  destruct (client_Do w tlsConfig (certgenRequest baseUrl userName "x509" _ _))
    as [x509Resp | e].
  2:{ simpl. intros [<- | [<- | []]]; [by left | by apply (Hcert _ _ Hx509)]. }
  assert (forall (x509Cert : option bytes) st,
             sent st = [loginRequest userName password baseUrl;
                        certgenRequest baseUrl userName "x509" (Cookies loginResp)
                          (string_of (pem_EncodeToMemory w "PUBLIC KEY" derKey))] ->
             In req
               (sent
                  (snd
                     (match ssh_NewPublicKey (Public signer) with
                      | Ok sshPub =>
                          let* (sshCert, err) :=
                            doCertRequest w tlsConfig (Cookies loginResp)
                              (baseUrl +:+ "/certgen/" +:+ userName +:+ "?type=ssh")
                              (string_of (ssh_MarshalAuthorizedKey sshPub)) in
                          match err with
                          | Some e => ret (None, None, Some e)
                          | None => ret (sshCert, x509Cert, None)
                          end
                      | Err err => ret (None, None, Some err)
                      end st))) ->
             req = loginRequest userName password baseUrl \/
             exists loginResp0 certType0 keyMaterial0,
               Ok loginResp = Ok loginResp0 /\
               key_material w signer certType0 keyMaterial0 /\
               req = certgenRequest baseUrl userName certType0
                       (Cookies loginResp0) keyMaterial0) as Hssh.
  { intros x509Cert st Hst.
    destruct (ssh_NewPublicKey (Public signer)) as [sshPub | e] eqn:Hpub.
    2:{ simpl. rewrite Hst. intros [<- | [<- | []]]; [by left | by apply (Hcert _ _ Hx509)]. }
    assert (key_material w signer "ssh"
              (string_of (ssh_MarshalAuthorizedKey sshPub))) as Hkey.
    { right. split; [done |]. by exists sshPub. }
    rewrite bind_run.
    rewrite (doCertRequest_run (Cookies loginResp) baseUrl userName "ssh").
    cbv zeta.
    destruct (url_Parse_err w _) as [e |].
    { simpl. rewrite Hst. intros [<- | [<- | []]]; [by left | by apply (Hcert _ _ Hx509)]. }
    destruct (client_Do w tlsConfig (certgenRequest baseUrl userName "ssh" _ _))
      as [sshResp | e].
    2:{ simpl. rewrite Hst.
        intros [<- | [<- | [<- | []]]]; [by left | by apply (Hcert _ _ Hx509) | by apply (Hcert _ _ Hkey)]. }
    unfold ioutil_ReadAll.
    destruct (StatusCode sshResp =? 200)%Z; [destruct (RespBodyErr sshResp) |];
      simpl; rewrite Hst;
      (intros [<- | [<- | [<- | []]]]; [by left | by apply (Hcert _ _ Hx509) | by apply (Hcert _ _ Hkey)]). }
  unfold ioutil_ReadAll.
  destruct (StatusCode x509Resp =? 200)%Z; [destruct (RespBodyErr x509Resp) |]; cbn [fst snd].
  - simpl. intros [<- | [<- | []]]; [by left | by apply (Hcert _ _ Hx509)].
  - by apply Hssh.
  - by apply Hssh.
Qed.

(** C8. Every certificate request that an attempt sends is a POST to
    [baseUrl + "/certgen/" + identity + "?type=" + certType] whose body
    is a multipart form with the single file field [pubkeyfile] holding
    the key material, and which carries every cookie of the login
    answer; and a certificate request answered with status 200 returns
    what reading the response body returns, that is its raw bytes. *)
Theorem certificate_request_contract :
  (forall baseUrl req,
      In req (attempt_requests baseUrl) ->
      req <> loginRequest userName password baseUrl ->
      exists loginResp certType keyMaterial,
        client_Do w tlsConfig (loginRequest userName password baseUrl) = Ok loginResp /\
        key_material w signer certType keyMaterial /\
        req = certgenRequest baseUrl userName certType (Cookies loginResp) keyMaterial)
  /\
  (forall session baseUrl identity certType keyMaterial resp,
      let url := baseUrl +:+ "/certgen/" +:+ identity +:+ "?type=" +:+ certType in
      let req := certgenRequest baseUrl identity certType session keyMaterial in
      let request := doCertRequest w tlsConfig session url keyMaterial in
      url_Parse_err w url = None ->
      client_Do w tlsConfig req = Ok resp ->
      StatusCode resp = 200%Z ->
      requests_of request = [req] /\
      value_of request = (Some (RespBody resp), RespBodyErr resp)).
Proof.
  split.
  - intros baseUrl req Hin Hne.
    destruct (attempt_requests_shape baseUrl req Hin) as [-> | H]; [done | exact H].
  - intros session baseUrl identity certType keyMaterial resp url req request
      Hurl Hdo Hstatus.
    subst url req request. unfold requests_of, value_of.
    rewrite (doCertRequest_run session baseUrl identity certType keyMaterial quiet).
    cbv zeta. rewrite Hurl, Hdo.
    apply Z.eqb_eq in Hstatus. rewrite Hstatus. by split.
Qed.

(** An attempt in which the login opens a session, the X.509 request
    is answered and the SSH request is answered with status 200. *)
Lemma attempt_succeeds baseUrl loginResp derKey sshPub sshResp :
  url_Parse_err w (baseUrl +:+ "/api/v0/login") = None ->
  url_Parse_err w (baseUrl +:+ "/certgen/" +:+ userName +:+ "?type=x509") = None ->
  url_Parse_err w (baseUrl +:+ "/certgen/" +:+ userName +:+ "?type=ssh") = None ->
  client_Do w tlsConfig (loginRequest userName password baseUrl) = Ok loginResp ->
  opens_session loginResp ->
  x509_MarshalPKIXPublicKey (Public signer) = Ok derKey ->
  ssh_NewPublicKey (Public signer) = Ok sshPub ->
  let x509Req :=
    certgenRequest baseUrl userName "x509" (Cookies loginResp)
      (string_of (pem_EncodeToMemory w "PUBLIC KEY" derKey)) in
  let sshReq :=
    certgenRequest baseUrl userName "ssh" (Cookies loginResp)
      (string_of (ssh_MarshalAuthorizedKey sshPub)) in
  x509_answered (client_Do w tlsConfig x509Req) ->
  client_Do w tlsConfig sshReq = Ok sshResp ->
  StatusCode sshResp = 200%Z ->
  RespBodyErr sshResp = None ->
  fst (fst (value_of (attempt baseUrl))) = Some (RespBody sshResp) /\
  snd (value_of (attempt baseUrl)) = None /\
  attempt_requests baseUrl = [loginRequest userName password baseUrl; x509Req; sshReq].
Proof.
  intros Hlogin_url Hx509_url Hssh_url Hlogin Hsession Hder Hpub x509Req sshReq
    Hx509 Hssh Hstatus Hread.
  pose proof (attempt_with_session baseUrl loginResp derKey quiet
                Hlogin_url Hlogin Hsession Hder) as Hrun.
  rewrite bind_run in Hrun.
  rewrite (doCertRequest_run (Cookies loginResp) baseUrl userName "x509") in Hrun.
  change (url_Parse_err w
            (baseUrl +:+ "/certgen/" +:+ userName +:+ "?type=" +:+ "x509") = None)
    in Hx509_url.
  change (url_Parse_err w
            (baseUrl +:+ "/certgen/" +:+ userName +:+ "?type=" +:+ "ssh") = None)
    in Hssh_url.
  cbv zeta in Hrun. rewrite Hx509_url in Hrun. fold x509Req in Hrun.
  apply Z.eqb_eq in Hstatus.
  assert (forall (x509Cert : option bytes) lines,
             (let* (sshCert, err) :=
                doCertRequest w tlsConfig (Cookies loginResp)
                  (baseUrl +:+ "/certgen/" +:+ userName +:+ "?type=ssh")
                  (string_of (ssh_MarshalAuthorizedKey sshPub)) in
              match err with
              | Some e => ret (None, None, Some e)
              | None => ret (sshCert, x509Cert, None)
              end)
               (emit [x509Req] lines
                  (emit [loginRequest userName password baseUrl] [] quiet)) =
             ((Some (RespBody sshResp), x509Cert, None),
              emit [sshReq] []
                (emit [x509Req] lines
                   (emit [loginRequest userName password baseUrl] [] quiet)))) as Hthen.
  { intros x509Cert lines. rewrite bind_run.
    rewrite (doCertRequest_run (Cookies loginResp) baseUrl userName "ssh").
    cbv zeta. rewrite Hssh_url. fold sshReq. rewrite Hssh, Hstatus.
    unfold ioutil_ReadAll. rewrite Hread. reflexivity. }
  unfold attempt_requests, requests_of, value_of. rewrite Hrun.
  destruct (client_Do w tlsConfig x509Req) as [x509Resp | e]; [| destruct Hx509].
  simpl in Hx509.
  destruct (StatusCode x509Resp =? 200)%Z eqn:Hcode.
  - apply Z.eqb_eq in Hcode. unfold ioutil_ReadAll. rewrite (Hx509 Hcode).
    cbn [fst snd]. rewrite Hpub, Hthen. by repeat split.
  - cbn [fst snd]. rewrite Hpub, Hthen. by repeat split.
Qed.

End Candidate.

Section Origin.

Variable w : World.
Variables (signer : rsa_PrivateKey) (userName : string) (password : bytes).
Variable tlsConfig : tls_Config.

(** Where the certificate of an attempt comes from: it is the body of
    the answer, with status 200, to the SSH request, which is the last
    request of the attempt. *)
Ltac dead_end :=
  intros <-; unfold bind, log_Println, log_Printf, ret; cbn; intros; congruence.

Lemma attempt_run_origin baseUrl cert st r :
  attempt w signer userName password tlsConfig baseUrl st = r ->
  snd (fst r) = None ->
  fst (fst (fst r)) = Some cert ->
  exists loginResp sshPub sshResp,
    client_Do w tlsConfig (loginRequest userName password baseUrl) = Ok loginResp /\
    ssh_NewPublicKey (Public signer) = Ok sshPub /\
    let sshReq :=
      certgenRequest baseUrl userName "ssh" (Cookies loginResp)
        (string_of (ssh_MarshalAuthorizedKey sshPub)) in
    client_Do w tlsConfig sshReq = Ok sshResp /\
    StatusCode sshResp = 200%Z /\
    RespBody sshResp = cert /\
    last (sent (snd r)) = Some sshReq.
Proof.
  unfold attempt, getCertsFromServer, http_NewRequest.
  destruct (url_Parse_err w _) as [e |]; [dead_end |].
  change (SetBasicAuth _ _ _) with (loginRequest userName password baseUrl).
  rewrite bind_run. unfold Do at 1 2. cbn [fst snd].
  destruct (client_Do w tlsConfig (loginRequest userName password baseUrl))
    as [loginResp | e] eqn:Hlogin; [| dead_end].
  destruct (negb (StatusCode loginResp =? 200)%Z); [dead_end |].
  destruct (length (Cookies loginResp) <? 1)%nat; [dead_end |].
  destruct (x509_MarshalPKIXPublicKey (Public signer)) as [derKey | e]; [| dead_end].
  rewrite bind_run.
  rewrite (doCertRequest_run w tlsConfig (Cookies loginResp) baseUrl userName "x509").
  cbv zeta.
  destruct (url_Parse_err w _) as [e |]; [dead_end |].
  destruct (client_Do w tlsConfig (certgenRequest baseUrl userName "x509" _ _))
    as [x509Resp | e]; [| dead_end].
  assert (forall (x509Cert : option bytes) st,
             match ssh_NewPublicKey (Public signer) with
             | Ok sshPub =>
                 let* (sshCert, err) :=
                   doCertRequest w tlsConfig (Cookies loginResp)
                     (baseUrl +:+ "/certgen/" +:+ userName +:+ "?type=ssh")
                     (string_of (ssh_MarshalAuthorizedKey sshPub)) in
                 match err with
                 | Some e => ret (None, None, Some e)
                 | None => ret (sshCert, x509Cert, None)
                 end
             | Err err => ret (None, None, Some err)
             end st = r ->
             snd (fst r) = None ->
             fst (fst (fst r)) = Some cert ->
             exists loginResp0 sshPub sshResp,
               Ok loginResp = Ok loginResp0 /\
               ssh_NewPublicKey (Public signer) = Ok sshPub /\
               let sshReq :=
                 certgenRequest baseUrl userName "ssh" (Cookies loginResp0)
                   (string_of (ssh_MarshalAuthorizedKey sshPub)) in
               client_Do w tlsConfig sshReq = Ok sshResp /\
               StatusCode sshResp = 200%Z /\
               RespBody sshResp = cert /\
               last (sent (snd r)) = Some sshReq) as Hssh.
  { intros x509Cert st1.
    destruct (ssh_NewPublicKey (Public signer)) as [sshPub | e]; [| dead_end].
    rewrite bind_run.
    rewrite (doCertRequest_run w tlsConfig (Cookies loginResp) baseUrl userName "ssh").
    cbv zeta.
    destruct (url_Parse_err w _) as [e |]; [dead_end |].
    destruct (client_Do w tlsConfig (certgenRequest baseUrl userName "ssh" _ _))
      as [sshResp | e] eqn:Hdo; [| dead_end].
    destruct (StatusCode sshResp =? 200)%Z eqn:Hcode; [| dead_end].
    unfold ioutil_ReadAll. destruct (RespBodyErr sshResp); [dead_end |].
    intros <-. cbn [fst snd ret emit sent]. intros _ [= <-].
    exists loginResp, sshPub, sshResp. apply Z.eqb_eq in Hcode.
    repeat split; try done. apply last_snoc. }
  unfold ioutil_ReadAll.
  destruct (StatusCode x509Resp =? 200)%Z; [destruct (RespBodyErr x509Resp) |];
    cbn [fst snd]; [dead_end | apply Hssh | apply Hssh].
Qed.

(** Where the certificate of an attempt comes from: it is the body of
    the answer, with status 200, to the SSH request, which is the last
    request of the attempt. *)
Lemma attempt_certificate_origin baseUrl cert :
  attempt_error w signer userName password tlsConfig baseUrl = None ->
  attempt_cert w signer userName password tlsConfig baseUrl = Some cert ->
  exists loginResp sshPub sshResp,
    client_Do w tlsConfig (loginRequest userName password baseUrl) = Ok loginResp /\
    ssh_NewPublicKey (Public signer) = Ok sshPub /\
    let sshReq :=
      certgenRequest baseUrl userName "ssh" (Cookies loginResp)
        (string_of (ssh_MarshalAuthorizedKey sshPub)) in
    client_Do w tlsConfig sshReq = Ok sshResp /\
    StatusCode sshResp = 200%Z /\
    RespBody sshResp = cert /\
    last (attempt_requests w signer userName password tlsConfig baseUrl) = Some sshReq.
Proof.
  intros Herr Hcert.
  exact (attempt_run_origin baseUrl cert quiet _ eq_refl Herr Hcert).
Qed.

End Origin.

(** ** The failover controller *)

Section Controller.

Variable w : World.
Variables (signer : rsa_PrivateKey) (pubKeyFilename userName : string).
Variables (password : bytes) (rootCAs : option (list bytes)).

Local Abbreviation tlsConfig :=
  {| RootCAs := rootCAs; MinVersion := tls_VersionTLS12 |}.

Local Abbreviation attempt_requests := (attempt_requests w signer userName password tlsConfig).
Local Abbreviation attempt_lines := (attempt_lines w signer userName password tlsConfig).
Local Abbreviation attempt_fails := (attempt_fails w signer userName password tlsConfig).
Local Abbreviation attempt_error := (attempt_error w signer userName password tlsConfig).
Local Abbreviation enroll :=
  (getCertFromTargetUrls w signer pubKeyFilename userName password).

Lemma getCertFromTargetUrls_first before baseUrl after st :
  Forall attempt_fails before ->
  attempt_error baseUrl = None ->
  enroll (before ++ baseUrl :: after) rootCAs st =
  ((attempt_cert w signer userName password tlsConfig baseUrl, None),
   emit (flat_map attempt_requests (before ++ [baseUrl]))
        (flat_map attempt_lines (before ++ [baseUrl])) st).
Proof.
  intros Hbefore Hok. unfold getCertFromTargetUrls. rewrite bind_run.
  by rewrite (range_targetUrls_first w signer userName password tlsConfig
                before baseUrl after Hbefore Hok st).
Qed.

Lemma getCertFromTargetUrls_exhausted targetUrls st :
  Forall attempt_fails targetUrls ->
  enroll targetUrls rootCAs st =
  ((None, Some (errors_New "Failed to get creds")),
   emit (flat_map attempt_requests targetUrls)
        (flat_map attempt_lines targetUrls ++ ["failed to get creds"]) st).
Proof.
  intros Hall. unfold getCertFromTargetUrls. rewrite bind_run.
  rewrite (range_targetUrls_exhausted w signer userName password tlsConfig
             targetUrls Hall st).
  simpl. rewrite bind_run. simpl.
  unfold emit, ret; simpl. by rewrite <- app_assoc.
Qed.

(** C4 (amended). When every candidate before the k-th ends its attempt
    with an error, and the k-th answers the login with status 200 and a
    cookie, answers the X.509 request, and answers the SSH request with
    status 200, the controller sends the requests of the attempts on
    candidates 1..k in the order of the list and nothing after them,
    and returns the body of the k-th candidate's SSH answer. *)
Theorem first_success_wins before baseUrl after loginResp derKey sshPub sshResp st :
  Forall attempt_fails before ->
  url_Parse_err w (baseUrl +:+ "/api/v0/login") = None ->
  url_Parse_err w (baseUrl +:+ "/certgen/" +:+ userName +:+ "?type=x509") = None ->
  url_Parse_err w (baseUrl +:+ "/certgen/" +:+ userName +:+ "?type=ssh") = None ->
  client_Do w tlsConfig (loginRequest userName password baseUrl) = Ok loginResp ->
  opens_session loginResp ->
  x509_MarshalPKIXPublicKey (Public signer) = Ok derKey ->
  ssh_NewPublicKey (Public signer) = Ok sshPub ->
  let login := loginRequest userName password baseUrl in
  let x509Req :=
    certgenRequest baseUrl userName "x509" (Cookies loginResp)
      (string_of (pem_EncodeToMemory w "PUBLIC KEY" derKey)) in
  let sshReq :=
    certgenRequest baseUrl userName "ssh" (Cookies loginResp)
      (string_of (ssh_MarshalAuthorizedKey sshPub)) in
  x509_answered (client_Do w tlsConfig x509Req) ->
  client_Do w tlsConfig sshReq = Ok sshResp ->
  StatusCode sshResp = 200%Z ->
  RespBodyErr sshResp = None ->
  let run := enroll (before ++ baseUrl :: after) rootCAs st in
  fst run = (Some (RespBody sshResp), None) /\
  sent (snd run) =
    sent st ++ flat_map attempt_requests before ++ [login; x509Req; sshReq].
Proof.
  intros Hbefore Hlogin_url Hx509_url Hssh_url Hlogin Hsession Hder Hpub
    login x509Req sshReq Hx509 Hssh Hstatus Hread run.
  destruct (attempt_succeeds w signer userName password tlsConfig baseUrl
              loginResp derKey sshPub sshResp
              Hlogin_url Hx509_url Hssh_url Hlogin Hsession Hder Hpub
              Hx509 Hssh Hstatus Hread) as (Hcert & Herr & Hreqs).
  subst run.
  rewrite (getCertFromTargetUrls_first before baseUrl after st Hbefore Herr).
  unfold attempt_cert. rewrite Hcert. split; [reflexivity |].
  cbn [snd emit sent]. rewrite flat_map_app. cbn [flat_map].
  by rewrite app_nil_r, Hreqs.
Qed.

(** C5 (amended). When the attempt on every one of the N candidates
    ends with an error, the controller makes the N attempts in the order
    of the list and then returns the fixed error "Failed to get creds",
    which says nothing about the candidates; the error of each attempt
    goes to the log, one after the other. *)
Theorem exhaustion_after_all_candidates targetUrls st :
  Forall attempt_fails targetUrls ->
  let run := enroll targetUrls rootCAs st in
  fst run = (None, Some (errors_New "Failed to get creds")) /\
  sent (snd run) = sent st ++ flat_map attempt_requests targetUrls /\
  logged (snd run) =
    logged st ++ flat_map attempt_lines targetUrls ++ ["failed to get creds"].
Proof.
  intros Hall run. subst run.
  rewrite (getCertFromTargetUrls_exhausted targetUrls st Hall).
  by repeat split.
Qed.

(** The certificate that the controller returns is the body of the
    answer to the SSH request of one candidate of the list, and that
    request is the last one the controller sends. *)
Lemma enroll_certificate_origin targetUrls cert :
  value_of (enroll targetUrls rootCAs) = (Some cert, None) ->
  exists baseUrl loginResp sshPub sshResp,
    In baseUrl targetUrls /\
    client_Do w tlsConfig (loginRequest userName password baseUrl) = Ok loginResp /\
    ssh_NewPublicKey (Public signer) = Ok sshPub /\
    let sshReq :=
      certgenRequest baseUrl userName "ssh" (Cookies loginResp)
        (string_of (ssh_MarshalAuthorizedKey sshPub)) in
    client_Do w tlsConfig sshReq = Ok sshResp /\
    StatusCode sshResp = 200%Z /\
    RespBody sshResp = cert /\
    last (requests_of (enroll targetUrls rootCAs)) = Some sshReq.
Proof.
  unfold value_of, requests_of.
  destruct (first_success_split w signer userName password tlsConfig targetUrls)
    as [Hall | (before & baseUrl & after & -> & Hbefore & Hok)].
  - rewrite (getCertFromTargetUrls_exhausted targetUrls quiet Hall). by cbn.
  - rewrite (getCertFromTargetUrls_first before baseUrl after quiet Hbefore Hok).
    cbn [fst snd emit sent quiet app]. intros [= Hcert].
    destruct (attempt_certificate_origin w signer userName password tlsConfig
                baseUrl cert Hok Hcert)
      as (loginResp & sshPub & sshResp & Hlogin & Hpub & Hdo & Hstatus & Hbody & Hlast).
    exists baseUrl, loginResp, sshPub, sshResp.
    split; [apply in_or_app; right; by left |].
    split_and!; try assumption.
    rewrite flat_map_app. cbn [flat_map]. rewrite app_nil_r, last_app.
    cbv zeta in Hlast. by rewrite Hlast.
Qed.

End Controller.

(** ** The key pair on disk *)

(** One file-system call of a run: name its error and its result. *)
Ltac exec_step :=
  match goal with
  | |- context [fs_step ?w0 ?op ?f] =>
      let err := fresh "err" in
      let f' := fresh "f" in
      let H := fresh "Hstep" in
      destruct (fs_step w0 op f) as [err f'] eqn:H;
      cbn [fs fs_events sent logged stdout snd fst log_Printf ret]
  end.

Section KeyPair.

Variable w : World.

Lemma syscall_run op st :
  syscall w op st =
  (fst (fs_step w op (fs st)),
   {| fs := snd (fs_step w op (fs st));
      fs_events := fs_events st ++
        [ {| ev_op := op; ev_err := fst (fs_step w op (fs st));
             ev_fs := snd (fs_step w op (fs st)) |} ];
      sent := sent st; logged := logged st; stdout := stdout st |}).
Proof. unfold syscall. by destruct (fs_step w op (fs st)). Qed.

(** A call other than the removal of [p] or a change of its mode
    leaves [p] in place with its mode. *)
Lemma fs_step_keeps_mode p op f fl :
  f !! p = Some fl ->
  op <> OpRemove p ->
  (forall m, op <> OpChmod p m) ->
  exists fl', snd (fs_step w op f) !! p = Some fl' /\ mode fl' = mode fl.
Proof.
  intros Hfl Hremove Hchmod.
  assert (forall q d, exists fl', fs_write q d f !! p = Some fl' /\ mode fl' = mode fl)
    as Hwrite.
  { intros q d. unfold fs_write.
    destruct (f !! q) as [flq |] eqn:Hq; [| by exists fl].
    destruct (decide (q = p)) as [-> | Hne].
    - rewrite lookup_insert_eq. exists (appended d flq).
      split; [done |]. simpl. congruence.
    - rewrite lookup_insert_ne by done. by exists fl. }
  unfold fs_step.
  destruct (os_fault w op) as [[n e] |].
  - destruct op; simpl; try (by exists fl). apply Hwrite.
  - destruct op as [q | q perm | q m | q d | q | q]; simpl.
    + destruct (f !! q) eqn:Hq; simpl; [| by exists fl].
      rewrite lookup_delete_ne; [by exists fl | congruence].
    + destruct (decide (q = p)) as [-> | Hne].
      * rewrite lookup_insert_eq, Hfl. by eexists.
      * rewrite lookup_insert_ne by done. by exists fl.
    + destruct (f !! q) as [flq |] eqn:Hq; simpl; [| by exists fl].
      rewrite lookup_insert_ne; [by exists fl | ].
      intros ->. by apply (Hchmod m).
    + destruct (f !! q); simpl; [apply Hwrite | by exists fl].
    + destruct (f !! q); simpl; by exists fl.
    + destruct (f !! q); simpl; by exists fl.
Qed.

Lemma since_app_skip test evs1 evs2 :
  forallb (fun ev => negb (test ev)) evs1 = true ->
  since test (evs1 ++ evs2) = since test evs2.
Proof.
  induction evs1 as [| ev evs1 IH]; simpl; [done |].
  intros [Hev Hrest]%andb_prop. apply negb_true_iff in Hev. rewrite Hev. auto.
Qed.

Lemma fs_step_open p perm f f' :
  fs_step w (OpOpen p perm) f = (None, f') ->
  exists fl, f' !! p = Some fl /\ data fl = [].
Proof.
  unfold fs_step. destruct (os_fault w _) as [[n e] |]; [done |].
  intros [= <-]. rewrite lookup_insert_eq. eexists. split; [done |].
  by destruct (f !! p).
Qed.

Lemma fs_step_chmod p m f f' :
  fs_step w (OpChmod p m) f = (None, f') -> exists fl, f' !! p = Some fl /\ mode fl = m.
Proof.
  unfold fs_step. destruct (os_fault w _) as [[n e] |]; [done |].
  destruct (f !! p) as [fl |]; [| done].
  intros [= <-]. rewrite lookup_insert_eq. by eexists.
Qed.

Lemma fs_step_chmod_failed p m f e f' :
  fs_step w (OpChmod p m) f = (Some e, f') -> f' = f.
Proof.
  unfold fs_step. destruct (os_fault w _) as [[n e'] |]; [congruence |].
  destruct (f !! p); congruence.
Qed.

Lemma locked_step p op f err f' :
  locked p f ->
  fs_step w op f = (err, f') ->
  op <> OpRemove p ->
  (forall m, op <> OpChmod p m) ->
  locked p f'.
Proof.
  intros (fl & Hfl & Hmode) Hstep Hremove Hchmod.
  destruct (fs_step_keeps_mode p op f fl Hfl Hremove Hchmod) as (fl' & Hfl' & Hmode').
  rewrite Hstep in Hfl'. exists fl'. split; [done | congruence].
Qed.

Lemma locked_empty_or_0600 p op err f :
  locked p f -> empty_or_0600 p {| ev_op := op; ev_err := err; ev_fs := f |}.
Proof. intros (fl & Hfl & Hmode) fl'. simpl. rewrite Hfl. by intros [= <-]. Qed.

Lemma locked_mode_at p op err f :
  locked p f -> mode_at p {| ev_op := op; ev_err := err; ev_fs := f |} = Some perm_0600.
Proof. intros (fl & Hfl & Hmode). unfold mode_at. simpl. by rewrite Hfl, <- Hmode. Qed.

Lemma blank_empty_or_0600 p op err f :
  (exists fl, f !! p = Some fl /\ data fl = []) ->
  empty_or_0600 p {| ev_op := op; ev_err := err; ev_fs := f |}.
Proof. intros (fl & Hfl & Hdata) fl'. simpl. rewrite Hfl. intros [= <-]. by rewrite Hdata. Qed.

Ltac close_events :=
  rewrite <- ?app_assoc, drop_app_length; unfold opens, chmods;
  cbn [app since ev_op ev_err];
  rewrite ?String.eqb_refl, ?N.eqb_refl; cbn [app since ev_op ev_err andb];
  split; [| split; [| reflexivity]];
  repeat match goal with
         | |- Forall _ [] => constructor
         | |- Forall _ (_ :: _) => constructor
         end;
  first [ apply blank_empty_or_0600; assumption
        | apply locked_empty_or_0600; assumption
        | apply locked_mode_at; assumption ].

(** C7 (amended). In every run of [genKeyPair], from the opening of the
    private key file by [os.Create] on, the file holds no byte unless
    its mode is 0600: the mode is set before any byte of the key is
    written.  From the change of mode on, the mode of the file stays
    0600, which gives neither group nor others the right to read. *)
Theorem private_key_mode privateKeyPath st :
  let evs := events_of (genKeyPair w privateKeyPath) st in
  Forall (empty_or_0600 privateKeyPath) (since (opens privateKeyPath) evs) /\
  Forall (fun ev => mode_at privateKeyPath ev = Some perm_0600)
    (since (chmods privateKeyPath perm_0600) evs) /\
  group_or_world_readable perm_0600 = false.
Proof.
  intros evs. subst evs. unfold events_of, genKeyPair.
  destruct (rsa_GenerateKey w) as [privateKey | e].
  2:{ unfold ret; simpl. rewrite drop_all. repeat split; constructor. }
  destruct st as [f0 evs0 reqs lines outs].
  unfold ioutil_WriteFile, os_Remove, os_Create, File_Chmod, File_Write, bind, syscall.
  cbn [fs fs_events sent logged stdout].
  do 3 exec_step.
  destruct err1 as [e1 |]; cbn [fs fs_events sent logged stdout snd fst log_Printf ret].
  { close_events. }
  pose proof (fs_step_open _ _ _ _ Hstep1) as Hblank.
  exec_step.
  destruct err1 as [e1 |]; cbn [fs fs_events sent logged stdout snd fst log_Printf ret].
  { apply fs_step_chmod_failed in Hstep2 as ->. close_events. }
  assert (locked privateKeyPath f3) as Hlocked by (by apply fs_step_chmod in Hstep2).
  exec_step.
  assert (locked privateKeyPath f4) as Hlocked4
    by (apply (locked_step _ _ _ _ _ Hlocked Hstep3); [discriminate | intros; discriminate]).
  destruct err1 as [e1 |]; cbn [fs fs_events sent logged stdout snd fst log_Printf ret].
  { close_events. }
  destruct (ssh_NewPublicKey (Public privateKey)) as [pub | e];
    cbn [fs fs_events sent logged stdout snd fst log_Printf ret].
  2:{ close_events. }
  exec_step.
  assert (locked privateKeyPath f5) as Hlocked5
    by (apply (locked_step _ _ _ _ _ Hlocked4 Hstep4); [discriminate | intros; discriminate]).
  destruct err1 as [e1 |]; cbn [fs fs_events sent logged stdout snd fst log_Printf ret].
  { close_events. }
  exec_step.
  assert (locked privateKeyPath f6) as Hlocked6
    by (apply (locked_step _ _ _ _ _ Hlocked5 Hstep5); [discriminate | intros; discriminate]).
  close_events.
Qed.

(** A run of [genKeyPair] that returns a key without an error: the
    seven calls it made, and what it left untouched. *)
Lemma genKeyPair_success privateKeyPath st signer pubKeyFilename st' :
  genKeyPair w privateKeyPath st = ((Some signer, pubKeyFilename, None), st') ->
  exists sshPub evs,
    rsa_GenerateKey w = Ok signer /\
    ssh_NewPublicKey (Public signer) = Ok sshPub /\
    fs_events st' = fs_events st ++ evs /\
    map ev_op evs =
      [ OpRemove privateKeyPath;
        OpRemove (privateKeyPath +:+ ".pub");
        OpOpen privateKeyPath perm_0666;
        OpChmod privateKeyPath perm_0600;
        OpWrite privateKeyPath
          (pem_EncodeToMemory w "RSA PRIVATE KEY" (x509_MarshalPKCS1PrivateKey signer));
        OpOpen (privateKeyPath +:+ ".pub") perm_0644;
        OpWrite (privateKeyPath +:+ ".pub") (ssh_MarshalAuthorizedKey sshPub) ] /\
    sent st' = sent st /\ logged st' = logged st /\ stdout st' = stdout st.
Proof.
  unfold genKeyPair.
  destruct (rsa_GenerateKey w) as [privateKey | e] eqn:Hkey; [| by intros [=]].
  destruct st as [f0 evs0 reqs lines outs].
  unfold ioutil_WriteFile, os_Remove, os_Create, File_Chmod, File_Write, bind, syscall.
  cbn [fs fs_events sent logged stdout].
  do 3 exec_step.
  destruct err1 as [e1 |]; cbn [fs fs_events sent logged stdout snd fst log_Printf ret];
    [by intros [=] |].
  exec_step.
  destruct err1 as [e1 |]; cbn [fs fs_events sent logged stdout snd fst log_Printf ret];
    [by intros [=] |].
  exec_step.
  destruct err1 as [e1 |]; cbn [fs fs_events sent logged stdout snd fst log_Printf ret];
    [by intros [=] |].
  destruct (ssh_NewPublicKey (Public privateKey)) as [pub | e] eqn:Hpub;
    cbn [fs fs_events sent logged stdout snd fst log_Printf ret]; [| by intros [=]].
  exec_step.
  destruct err1 as [e1 |]; cbn [fs fs_events sent logged stdout snd fst log_Printf ret];
    [by intros [=] |].
  exec_step.
  intros [= -> <- -> <-].
  eexists pub, _. cbn [fs fs_events sent logged stdout].
  rewrite <- !app_assoc. split_and!; try assumption; reflexivity.
Qed.


End KeyPair.

(** ** The whole run *)

Section Main.

Variable w : World.

Lemma loadVerifyConfigFile_rejects st :
  config_missing w st \/ config_unparsable w st \/ config_without_urls w st ->
  exists e, snd (loadVerifyConfigFile w (flag_config w) (fs st)) = Some e.
Proof.
  unfold loadVerifyConfigFile.
  intros [Hmissing | [(source & e & Hread & Hparse) | (source & Hread & Hurls)]].
  - red in Hmissing.
    destruct (stat_IsNotExist w (flag_config w) (fs st)); [by eexists |].
    unfold ioutil_ReadFile. rewrite Hmissing.
    destruct (os_fault w (OpReadFile (flag_config w))) as [[n e] |]; by eexists.
  - destruct (stat_IsNotExist w (flag_config w) (fs st)); [by eexists |].
    rewrite Hread. destruct (yaml_Unmarshal w source) as [config err].
    simpl in Hparse. subst err. by eexists.
  - destruct (stat_IsNotExist w (flag_config w) (fs st)); [by eexists |].
    rewrite Hread. destruct (yaml_Unmarshal w source) as [config err].
    simpl in Hurls. destruct err; [by eexists |]. rewrite Hurls. by eexists.
Qed.

(** C9. When the configuration file is missing, is not parsable, or
    gives an empty list of URLs, the process panics, with exit status 2,
    in the state it started from: no request has been sent, no file
    has been touched (in particular no key pair written), nothing has
    been logged or prompted. *)
Theorem configuration_error_is_fatal st :
  config_missing w st \/ config_unparsable w st \/ config_without_urls w st ->
  let run := main w st in
  exit_status (fst run) = 2%Z /\ snd run = st.
Proof.
  intros Hconfig run. subst run.
  destruct (loadVerifyConfigFile_rejects st Hconfig) as [e He].
  unfold main.
  destruct (loadVerifyConfigFile w (flag_config w) (fs st)) as [config err].
  simpl in He. subst err. by split.
Qed.

(** C10. In every run that ends with [main] returning, the certificate
    handed to the final write is the body of the answer to the SSH
    request of one candidate of the list, the last request sent.  The
    calls on the file system are those of the key pair and the removal,
    opening and writing of the certificate file: the only bytes written
    are the private key, the public key and that SSH certificate, so
    the X.509 certificate reaches no file; and when the opening and the
    writing succeed the certificate file holds the SSH certificate. *)
Theorem only_the_ssh_certificate_is_persisted st st' :
  main w st = (Returned, st') ->
  exists usr password signer sshPub baseUrl loginResp sshResp,
    let config := fst (loadVerifyConfigFile w (flag_config w) (fs st)) in
    let privateKeyPath := filepath_Join w [HomeDir usr; "/.ssh/"; FILE_PREFIX] in
    let certPath := privateKeyPath +:+ "-cert.pub" in
    let tlsConfig := {| RootCAs := None; MinVersion := tls_VersionTLS12 |} in
    let sshReq :=
      certgenRequest baseUrl (Username usr) "ssh" (Cookies loginResp)
        (string_of (ssh_MarshalAuthorizedKey sshPub)) in
    user_Current w = Ok usr /\
    gopass_GetPasswd w = Ok password /\
    rsa_GenerateKey w = Ok signer /\
    ssh_NewPublicKey (Public signer) = Ok sshPub /\
    In baseUrl (strings_Split (Gen_Cert_URLS (Base config)) ",") /\
    client_Do w tlsConfig (loginRequest (Username usr) password baseUrl) = Ok loginResp /\
    client_Do w tlsConfig sshReq = Ok sshResp /\
    StatusCode sshResp = 200%Z /\
    last (sent st') = Some sshReq /\
    map ev_op (events_of (main w) st) =
      [ OpRemove privateKeyPath;
        OpRemove (privateKeyPath +:+ ".pub");
        OpOpen privateKeyPath perm_0666;
        OpChmod privateKeyPath perm_0600;
        OpWrite privateKeyPath
          (pem_EncodeToMemory w "RSA PRIVATE KEY" (x509_MarshalPKCS1PrivateKey signer));
        OpOpen (privateKeyPath +:+ ".pub") perm_0644;
        OpWrite (privateKeyPath +:+ ".pub") (ssh_MarshalAuthorizedKey sshPub);
        OpRemove certPath;
        OpOpen certPath perm_0644 ]
      ++ match os_fault w (OpOpen certPath perm_0644) with
         | None => [OpWrite certPath (RespBody sshResp)]
         | Some _ => []
         end /\
    (os_fault w (OpOpen certPath perm_0644) = None ->
     os_fault w (OpWrite certPath (RespBody sshResp)) = None ->
     data <$> fs st' !! certPath = Some (RespBody sshResp)).
Proof.
  unfold events_of. intros Hmain. rewrite Hmain. cbn [snd]. revert Hmain.
  unfold main.
  destruct (loadVerifyConfigFile w (flag_config w) (fs st)) as [config [e |]];
    [by intros [=] |].
  rewrite bind_run. unfold getUserInfoAndCreds.
  destruct (user_Current w) as [usr | e] eqn:Husr; [| by cbn].
  rewrite bind_run. cbn [fst snd].
  destruct (gopass_GetPasswd w) as [password | e] eqn:Hpw; [| by cbn].
  cbn [ret fst snd getUserHomeDir].
  set (st1 := snd (fmt_Printf _ st)).
  set (privateKeyPath := filepath_Join w [HomeDir usr; "/.ssh/"; FILE_PREFIX]).
  rewrite bind_run.
  destruct (genKeyPair w privateKeyPath st1) as [[[signer pubKeyFilename] err] st2] eqn:Hgen.
  cbn [fst snd].
  destruct err as [e |]; [destruct signer; by cbn |].
  destruct signer as [signer |]; [| by cbn].
  destruct (genKeyPair_success w privateKeyPath st1 signer pubKeyFilename st2 Hgen)
    as (sshPub & evs & Hkey & Hpub & Hevs & Hops & Hsent & _ & _).
  rewrite bind_run.
  rewrite (getCertFromTargetUrls_network_only w signer pubKeyFilename (Username usr)
             password (strings_Split (Gen_Cert_URLS (Base config)) ",") None st2).
  cbn [fst snd].
  destruct (value_of (getCertFromTargetUrls w signer pubKeyFilename (Username usr)
                        password (strings_Split (Gen_Cert_URLS (Base config)) ",") None))
    as [[cert |] [e |]] eqn:Hvalue; try by cbn.
  destruct (enroll_certificate_origin w signer pubKeyFilename (Username usr) password
              None _ cert Hvalue)
    as (baseUrl & loginResp & sshPub' & sshResp & Hin & Hlogin & Hpub' & Hdo & Hstatus
        & Hbody & Hlast).
  cbv zeta in Hdo, Hlast. rewrite Hpub in Hpub'. injection Hpub' as <-.
  set (reqs := requests_of _) in *. set (lines := lines_of _).
  unfold ioutil_WriteFile, os_Remove, File_Write, bind, syscall, log_Printf, emit.
  cbn [fs fs_events sent logged stdout].
  subst cert.
  assert (fs_events st2 = fs_events st ++ evs) as Hevs' by exact Hevs.
  assert (sent st2 = sent st) as Hsent' by exact Hsent.
  exec_step.
  destruct (fs_step w (OpOpen (privateKeyPath +:+ "-cert.pub") perm_0644) f)
    as [err0 f0] eqn:Hopen.
  cbn [fs fs_events sent logged stdout].
  unfold fs_step in Hopen.
  destruct (os_fault w (OpOpen (privateKeyPath +:+ "-cert.pub") perm_0644))
    as [[n e] |] eqn:Hfault; injection Hopen as <- <-.
  - unfold ret. intros [= <-]. cbn [fs fs_events sent logged stdout].
    exists usr, password, signer, sshPub, baseUrl, loginResp, sshResp.
    cbv zeta. fold privateKeyPath. rewrite Hfault.
    split_and!; try done.
    + rewrite Hsent', last_app. by rewrite Hlast.
    + rewrite Hevs', <- !app_assoc, drop_app_length, !map_app, Hops. reflexivity.
  - cbn [fs fs_events sent logged stdout]. exec_step.
    match goal with
    | H : fs_step w (OpWrite _ _) _ = _ |- _ => rename H into Hwrite
    end.
    unfold ret. intros [= <-]. cbn [fs fs_events sent logged stdout].
    exists usr, password, signer, sshPub, baseUrl, loginResp, sshResp.
    cbv zeta. fold privateKeyPath. rewrite Hfault.
    split_and!; try done.
    + rewrite Hsent', last_app. by rewrite Hlast.
    + rewrite Hevs', <- !app_assoc, drop_app_length, !map_app, Hops. reflexivity.
    + intros _ Hnofault. unfold fs_step in Hwrite. rewrite Hnofault in Hwrite.
      rewrite lookup_insert_eq in Hwrite. injection Hwrite as _ <-.
      unfold fs_write. rewrite lookup_insert_eq, lookup_insert_eq.
      cbn. by destruct (f !! _).
Qed.

End Main.

(** ** The program on concrete inputs *)

Section Runs.

Import Sample.

Local Abbreviation urls := ["https://a"; "https://b"].
Local Abbreviation config := "https://a,https://b".
Local Abbreviation pubKeyPath := "/home/alice/.ssh/fubar.pub".

(** C1 (the code at the failing input). Candidate [a] opens a session
    and answers the SSH request with status 500; candidate [b] is
    healthy.  The controller stops at [a]: it returns a nil certificate
    with a nil error, sends nothing to [b], and [main] ends with the
    fatal error of a missing certificate. *)
Theorem ssh_status_failure_ends_enrollment :
  let w := world mask no_fault net_ssh_rejected in
  let run := getCertFromTargetUrls w key pubKeyPath "alice" secret urls None quiet in
  fst run = (None, None) /\
  map URL (sent (snd run)) =
    [ "https://a/api/v0/login"; "https://a/certgen/alice?type=x509";
      "https://a/certgen/alice?type=ssh" ] /\
  fst (main w (boot config)) = Fatal (errors_New "Could not get cert from any url").
Proof. vm_compute. repeat split. Qed.

(** C2 (the code at the failing input). Candidate [a] answers the login
    with status 403; candidate [b] is healthy.  The attempt on [a]
    returns no error, so the controller stops at [a] with a nil
    certificate and a nil error, sends nothing to [b], and [main] ends
    with the fatal error of a missing certificate. *)
Theorem login_status_failure_ends_enrollment :
  let w := world mask no_fault net_login_forbidden in
  let run := getCertFromTargetUrls w key pubKeyPath "alice" secret urls None quiet in
  attempt_error w key "alice" secret tls "https://a" = None /\
  fst run = (None, None) /\
  map URL (sent (snd run)) = [ "https://a/api/v0/login" ] /\
  fst (main w (boot config)) = Fatal (errors_New "Could not get cert from any url").
Proof. vm_compute. repeat split. Qed.

(** C3 fails as stated: candidate [a] opens a session and would answer
    the SSH request with a certificate, but its X.509 request meets a
    transport error; the attempt on [a] returns that error and the SSH
    request is never sent. *)
Lemma x509_transport_error_fails_the_candidate :
  let w := world mask no_fault net_x509_down in
  client_Do w tls (loginRequest "alice" secret "https://a") = login_ok /\
  client_Do w tls (certgenRequest "https://a" "alice" "ssh" session sshAuthFile)
    = ssh_ok "CERT-A" /\
  value_of (attempt w key "alice" secret tls "https://a")
    = (None, None, Some (errors_New "connection refused")) /\
  attempt_requests w key "alice" secret tls "https://a"
    = [ loginRequest "alice" secret "https://a";
        certgenRequest "https://a" "alice" "x509" session pemKey ].
Proof. vm_compute. repeat split. Qed.

Lemma x509_failure_and_the_candidate_witness :
  let w := world mask no_fault net_x509_rejected in
  attempt_requests w key "alice" secret tls "https://a"
    = [ loginRequest "alice" secret "https://a";
        certgenRequest "https://a" "alice" "x509" session pemKey;
        certgenRequest "https://a" "alice" "ssh" session sshAuthFile ] /\
  value_of (attempt w key "alice" secret tls "https://a")
    = (Some (bytes_of "CERT-A"), None, None).
Proof.
  intros w.
  pose (loginResp := {| StatusCode := 200; Status := "200 OK"; Cookies := session;
                        RespBody := []; RespBodyErr := None |}).
  pose (x509Resp := {| StatusCode := 500; Status := "500 Internal Server Error";
                       Cookies := []; RespBody := []; RespBodyErr := None |}).
  pose (sshResp := {| StatusCode := 200; Status := "200 OK"; Cookies := [];
                      RespBody := bytes_of "CERT-A"; RespBodyErr := None |}).
  assert (opens_session loginResp) as Hsession by (split; [reflexivity | discriminate]).
  assert (StatusCode x509Resp <> 200%Z) as Hrejected by discriminate.
  destruct (x509_failure_and_the_candidate w key "alice" secret tls "https://a"
              loginResp (bytes_of "PKIX")
              {| ssh_MarshalAuthorizedKey := bytes_of "ssh-rsa AAAA" |}
              eq_refl eq_refl eq_refl eq_refl Hsession eq_refl eq_refl)
    as [Hstatus _].
  destruct (Hstatus x509Resp eq_refl Hrejected) as [Hrequests Hcert].
  split; [exact Hrequests |].
  exact (Hcert sshResp eq_refl eq_refl eq_refl).
Defined.

(** C4 fails as stated: candidate [a] is the first whose login and SSH
    request are both answered well, but its X.509 request meets a
    transport error; the controller goes on to candidate [b] and
    returns the certificate of [b]. *)
Lemma first_candidate_with_ssh_is_passed_over :
  let w := world mask no_fault net_x509_down in
  let run := getCertFromTargetUrls w key pubKeyPath "alice" secret urls None quiet in
  client_Do w tls (loginRequest "alice" secret "https://a") = login_ok /\
  client_Do w tls (certgenRequest "https://a" "alice" "ssh" session sshAuthFile)
    = ssh_ok "CERT-A" /\
  fst run = (Some (bytes_of "CERT-B"), None) /\
  fst run <> (Some (bytes_of "CERT-A"), None) /\
  map URL (sent (snd run)) =
    [ "https://a/api/v0/login"; "https://a/certgen/alice?type=x509";
      "https://b/api/v0/login"; "https://b/certgen/alice?type=x509";
      "https://b/certgen/alice?type=ssh" ].
Proof. vm_compute. repeat split. discriminate. Qed.

Lemma first_success_wins_witness :
  let w := world mask no_fault net_b in
  let run :=
    getCertFromTargetUrls w key pubKeyPath "alice" secret
      ["https://a"; "https://b"; "https://c"] None quiet in
  fst run = (Some (bytes_of "CERT-B"), None) /\
  sent (snd run) =
    attempt_requests w key "alice" secret tls "https://a"
    ++ [ loginRequest "alice" secret "https://b";
         certgenRequest "https://b" "alice" "x509" session pemKey;
         certgenRequest "https://b" "alice" "ssh" session sshAuthFile ].
Proof.
  intros w run.
  pose (loginResp := {| StatusCode := 200; Status := "200 OK"; Cookies := session;
                        RespBody := []; RespBodyErr := None |}).
  pose (sshResp := {| StatusCode := 200; Status := "200 OK"; Cookies := [];
                      RespBody := bytes_of "CERT-B"; RespBodyErr := None |}).
  assert (Forall (attempt_fails w key "alice" secret tls) ["https://a"]) as Hbefore.
  { constructor; [| constructor]. exists (errors_New "connection refused"). reflexivity. }
  assert (opens_session loginResp) as Hsession by (split; [reflexivity | discriminate]).
  assert (x509_answered
            (client_Do w tls
               (certgenRequest "https://b" "alice" "x509" (Cookies loginResp)
                  (string_of (pem_EncodeToMemory w "PUBLIC KEY" (bytes_of "PKIX"))))))
    as Hx509 by (intros _; reflexivity).
  destruct (first_success_wins w key pubKeyPath "alice" secret None
              ["https://a"] "https://b" ["https://c"]
              loginResp (bytes_of "PKIX")
              {| ssh_MarshalAuthorizedKey := bytes_of "ssh-rsa AAAA" |}
              sshResp quiet Hbefore eq_refl eq_refl eq_refl eq_refl
              Hsession eq_refl eq_refl Hx509 eq_refl eq_refl eq_refl)
    as [Hcert Hsent].
  split; [exact Hcert |].
  etransitivity; [exact Hsent |].
  cbn [flat_map app sent quiet]. by rewrite app_nil_r.
Defined.

(** C5 fails as stated: the failure that the controller returns is
    the same after one failed candidate and after two, so it does not
    reflect the attempts made. *)
Lemma exhaustion_failure_is_not_aggregated : ~ failure_reflects_attempts.
Proof.
  intros [attempts_in Hreflects].
  pose (w := world mask no_fault nobody).
  assert (forall baseUrl, attempt_fails w key "alice" secret tls baseUrl) as Hfails.
  { intros baseUrl. exists (errors_New "connection refused"). reflexivity. }
  assert (attempts_in (errors_New "Failed to get creds") = 1%nat) as Hone.
  { apply (Hreflects w key pubKeyPath "alice" secret ["https://a"] None quiet).
    - constructor; [apply Hfails | constructor].
    - reflexivity. }
  assert (attempts_in (errors_New "Failed to get creds") = 2%nat) as Htwo.
  { apply (Hreflects w key pubKeyPath "alice" secret urls None quiet).
    - constructor; [apply Hfails | constructor; [apply Hfails | constructor]].
    - reflexivity. }
  congruence.
Qed.

Lemma exhaustion_after_all_candidates_witness :
  let w := world mask no_fault nobody in
  let run := getCertFromTargetUrls w key pubKeyPath "alice" secret urls None quiet in
  fst run = (None, Some (errors_New "Failed to get creds")) /\
  map URL (sent (snd run)) = [ "https://a/api/v0/login"; "https://b/api/v0/login" ] /\
  logged (snd run) =
    [ "attempting to target 'https://aalice'"; "got error from req";
      "connection refused"; "connection refused";
      "attempting to target 'https://balice'"; "got error from req";
      "connection refused"; "connection refused";
      "failed to get creds" ].
Proof.
  intros w run.
  assert (Forall (attempt_fails w key "alice" secret tls) urls) as Hall.
  { repeat (constructor; [exists (errors_New "connection refused"); reflexivity |]).
    constructor. }
  destruct (exhaustion_after_all_candidates w key pubKeyPath "alice" secret None
              urls quiet Hall) as (Hfailure & Hsent & Hlogged).
  split; [exact Hfailure |]. split.
  - unfold run. rewrite Hsent. reflexivity.
  - unfold run. rewrite Hlogged. reflexivity.
Defined.

(** C6 (the code at the failing input). The certificate is obtained
    and the disk is full when it is written: the write returns an
    error, the certificate file is left empty, and [main] returns, with
    exit status 0 and "Success" as its last log line. *)
Theorem failed_certificate_write_ends_in_success :
  let w := world mask cert_write_fails net_healthy in
  let run := main w (boot config) in
  ev_err <$> last (fs_events (snd run)) =
    Some (Some (errors_New "no space left on device")) /\
  data <$> fs (snd run) !! certPath = Some [] /\
  fst run = Returned /\
  exit_status (fst run) = 0%Z /\
  last (logged (snd run)) = Some "Success".
Proof. vm_compute. repeat split. Qed.

(** C7 fails as stated: with umask 022 and no key on disk, the private
    key file has mode 0644 from its creation until the change of mode,
    and that mode lets group and others read. *)
Lemma private_key_file_is_created_readable :
  ~ never_readable_by_others (world mask no_fault nobody) keyPath (boot config).
Proof.
  unfold never_readable_by_others. intros Hnever.
  assert (exists ev rest,
             since (opens keyPath)
               (events_of (genKeyPair (world mask no_fault nobody) keyPath) (boot config))
             = ev :: rest /\
             mode_at keyPath ev = Some perm_0644) as (ev & rest & Hsince & Hmode).
  { eexists _, _. split; vm_compute; reflexivity. }
  rewrite Hsince in Hnever. apply Forall_inv in Hnever.
  specialize (Hnever perm_0644 Hmode). discriminate Hnever.
Qed.

Lemma certificate_request_contract_witness :
  let w := world mask no_fault net_healthy in
  let request :=
    doCertRequest w tls session "https://a/certgen/alice?type=ssh" sshAuthFile in
  requests_of request = [ certgenRequest "https://a" "alice" "ssh" session sshAuthFile ] /\
  value_of request = (Some (bytes_of "CERT-A"), None).
Proof.
  intros w request.
  pose (resp := {| StatusCode := 200; Status := "200 OK"; Cookies := [];
                   RespBody := bytes_of "CERT-A"; RespBodyErr := None |}).
  destruct (certificate_request_contract w key "alice" secret tls) as [_ Hresult].
  exact (Hresult session "https://a" "alice" "ssh" sshAuthFile resp
           eq_refl eq_refl eq_refl).
Defined.

Lemma configuration_error_is_fatal_witness :
  let w := world mask no_fault net_healthy in
  let run := main w quiet in
  exit_status (fst run) = 2%Z /\ snd run = quiet.
Proof.
  intros w.
  apply (configuration_error_is_fatal w quiet).
  left. reflexivity.
Defined.

Lemma only_the_ssh_certificate_is_persisted_witness :
  let w := world mask no_fault net_healthy in
  let st' := snd (main w (boot config)) in
  data <$> fs st' !! certPath = Some (bytes_of "CERT-A").
Proof.
  intros w st'.
  assert (main w (boot config) = (Returned, st')) as Hmain by (vm_compute; reflexivity).
  destruct (only_the_ssh_certificate_is_persisted w (boot config) st' Hmain)
    as (usr & password & signer & sshPub & baseUrl & loginResp & sshResp & Hrun).
  cbv zeta in Hrun.
  destruct Hrun as (Husr & _ & _ & _ & _ & _ & _ & _ & _ & Hops & Hfile).
  injection Husr as <-.
  assert (RespBody sshResp = bytes_of "CERT-A") as Hbody.
  { assert (map ev_op (events_of (main w) (boot config)) =
            [ OpRemove keyPath; OpRemove pubKeyPath; OpOpen keyPath perm_0666;
              OpChmod keyPath perm_0600;
              OpWrite keyPath (armour "RSA PRIVATE KEY" (bytes_of "PKCS1"));
              OpOpen pubKeyPath perm_0644;
              OpWrite pubKeyPath (bytes_of "ssh-rsa AAAA");
              OpRemove certPath; OpOpen certPath perm_0644;
              OpWrite certPath (bytes_of "CERT-A") ]) as Hrun
      by (vm_compute; reflexivity).
    rewrite Hrun in Hops. vm_compute in Hops. vm_compute. congruence. }
  rewrite <- Hbody. apply Hfile; reflexivity.
Defined.

End Runs.

(** * Further properties of the program *)

(** ** Paths *)

Lemma append_cancel p a b : p +:+ a = p +:+ b -> a = b.
Proof. apply (inj (String.append p)). Qed.

Lemma append_empty p : p +:+ "" = p.
Proof.
  induction p as [| c p IH]; [reflexivity |].
  change (String c (p +:+ "") = String c p). by rewrite IH.
Qed.

Lemma suffix_differs p suffix : suffix <> "" -> p +:+ suffix <> p.
Proof.
  intros Hsuffix H. apply Hsuffix, (append_cancel p).
  by rewrite append_empty.
Qed.

Lemma pub_path_differs p : p +:+ ".pub" <> p.
Proof. by apply suffix_differs. Qed.

Lemma cert_path_differs p : p +:+ "-cert.pub" <> p.
Proof. by apply suffix_differs. Qed.

Lemma cert_path_differs_pub p : p +:+ "-cert.pub" <> p +:+ ".pub".
Proof. intros H. by apply append_cancel in H. Qed.

(** ** File-system calls: results and frames *)

Section Calls.

Variable w : World.

Lemma fs_step_other op f q :
  op_path op <> q -> snd (fs_step w op f) !! q = f !! q.
Proof.
  intros Hq. unfold fs_step, fs_write.
  destruct (os_fault w op) as [[n e] |].
  - destruct op as [p | p perm | p m | p d | p | p]; simpl in *; try done.
    destruct (f !! p); [by rewrite lookup_insert_ne | done].
  - destruct op as [p | p perm | p m | p d | p | p]; simpl in *.
    + destruct (f !! p); simpl; [by rewrite lookup_delete_ne | done].
    + by rewrite lookup_insert_ne.
    + destruct (f !! p); simpl; [by rewrite lookup_insert_ne | done].
    + destruct (f !! p); simpl; [by rewrite lookup_insert_ne | done].
    + by destruct (f !! p).
    + by destruct (f !! p).
Qed.

Lemma fs_step_open_result p perm f f' :
  fs_step w (OpOpen p perm) f = (None, f') ->
  f' = <[p := truncated perm (umask w) (f !! p)]> f.
Proof.
  unfold fs_step. destruct (os_fault w _) as [[n e] |]; [done |]. by intros [= <-].
Qed.

Lemma fs_step_chmod_result p m f f' :
  fs_step w (OpChmod p m) f = (None, f') ->
  exists fl, f !! p = Some fl /\ f' = <[p := {| mode := m; data := data fl |}]> f.
Proof.
  unfold fs_step. destruct (os_fault w _) as [[n e] |]; [done |].
  destruct (f !! p) as [fl |]; [| done]. intros [= <-]. by exists fl.
Qed.

Lemma fs_step_write_result p d f f' :
  fs_step w (OpWrite p d) f = (None, f') ->
  exists fl, f !! p = Some fl /\ f' = <[p := appended d fl]> f.
Proof.
  unfold fs_step, fs_write. destruct (os_fault w _) as [[n e] |]; [done |].
  destruct (f !! p) as [fl |]; [| done]. intros [= <-]. by exists fl.
Qed.

Lemma fs_step_remove_result p f err f' :
  os_fault w (OpRemove p) = None ->
  fs_step w (OpRemove p) f = (err, f') -> f' !! p = None.
Proof.
  unfold fs_step. intros ->.
  destruct (f !! p) eqn:Hp; intros [= _ <-]; [apply lookup_delete_eq | done].
Qed.

Lemma fs_step_fault op f n e :
  os_fault w op = Some (n, e) -> fst (fs_step w op f) = Some e.
Proof. unfold fs_step. intros ->. by destruct op. Qed.

Lemma fs_step_fault_fs op f n e :
  os_fault w op = Some (n, e) -> (forall p d, op <> OpWrite p d) ->
  snd (fs_step w op f) = f.
Proof. unfold fs_step. intros -> Hop. destruct op; try done. by destruct (Hop p d). Qed.

End Calls.

(** ** Untouched paths and offline processes *)

Lemma untouched_ret {A} q (a : A) : untouched q (ret a).
Proof. by intros st. Qed.

Lemma untouched_log q line : untouched q (log_Printf line).
Proof. by intros st. Qed.

Lemma untouched_fmt q text : untouched q (fmt_Printf text).
Proof. by intros st. Qed.

Lemma untouched_syscall w q op : op_path op <> q -> untouched q (syscall w op).
Proof. intros Hq st. rewrite syscall_run. simpl. by apply fs_step_other. Qed.

Lemma untouched_bind {A B} q (c : Proc A) (k : A -> Proc B) :
  untouched q c -> (forall a, untouched q (k a)) -> untouched q (bind c k).
Proof. intros Hc Hk st. rewrite bind_run, Hk. apply Hc. Qed.

Lemma untouched_network_only {A} q (c : Proc A) : network_only c -> untouched q c.
Proof. intros Hc st. by rewrite Hc. Qed.

Lemma offline_ret {A} (a : A) : offline (ret a).
Proof. by intros st. Qed.

Lemma offline_log line : offline (log_Printf line).
Proof. by intros st. Qed.

Lemma offline_fmt text : offline (fmt_Printf text).
Proof. by intros st. Qed.

Lemma offline_syscall w op : offline (syscall w op).
Proof. intros st. by rewrite syscall_run. Qed.

Lemma offline_bind {A B} (c : Proc A) (k : A -> Proc B) :
  offline c -> (forall a, offline (k a)) -> offline (bind c k).
Proof. intros Hc Hk st. rewrite bind_run, Hk. apply Hc. Qed.

Ltac frame_step :=
  match goal with
  | |- untouched _ (ret _) => apply untouched_ret
  | |- untouched _ (log_Printf _) => apply untouched_log
  | |- untouched _ (log_Println _) => apply untouched_log
  | |- untouched _ (log_Fatal _) => unfold log_Fatal
  | |- untouched _ (fmt_Printf _) => apply untouched_fmt
  | |- untouched _ (syscall _ _) => apply untouched_syscall; simpl; congruence
  | |- untouched _ (bind _ _) => apply untouched_bind; [| intros ?]
  | |- offline (ret _) => apply offline_ret
  | |- offline (log_Printf _) => apply offline_log
  | |- offline (log_Println _) => apply offline_log
  | |- offline (log_Fatal _) => unfold log_Fatal
  | |- offline (fmt_Printf _) => apply offline_fmt
  | |- offline (syscall _ _) => apply offline_syscall
  | |- offline (bind _ _) => apply offline_bind; [| intros ?]
  | |- _ (let _ := _ in _) => cbv zeta
  | |- _ (match ?x with _ => _ end) => destruct x
  | |- _ (if ?b then _ else _) => destruct b
  end.

Section KeyPairFiles.

Variable w : World.

Lemma genKeyPair_untouched privateKeyPath q :
  q <> privateKeyPath -> q <> privateKeyPath +:+ ".pub" ->
  untouched q (genKeyPair w privateKeyPath).
Proof.
  intros Hpriv Hpub.
  unfold genKeyPair, ioutil_WriteFile, os_Remove, os_Create, File_Chmod, File_Write.
  repeat frame_step.
Qed.

Lemma genKeyPair_offline privateKeyPath : offline (genKeyPair w privateKeyPath).
Proof.
  unfold genKeyPair, ioutil_WriteFile, os_Remove, os_Create, File_Chmod, File_Write.
  repeat frame_step.
Qed.

End KeyPairFiles.

Section KeyPairResult.

Variable w : World.

(** The two files after a run of [genKeyPair] that returns a key and no
    error. *)
Lemma genKeyPair_files privateKeyPath st signer pubKeyFilename st' :
  genKeyPair w privateKeyPath st = ((Some signer, pubKeyFilename, None), st') ->
  pubKeyFilename = privateKeyPath +:+ ".pub" /\
  fs st' !! privateKeyPath =
    Some {| mode := perm_0600;
            data := pem_EncodeToMemory w "RSA PRIVATE KEY"
                      (x509_MarshalPKCS1PrivateKey signer) |} /\
  exists sshPub,
    ssh_NewPublicKey (Public signer) = Ok sshPub /\
    data <$> fs st' !! pubKeyFilename = Some (ssh_MarshalAuthorizedKey sshPub).
Proof.
  unfold genKeyPair.
  destruct (rsa_GenerateKey w) as [privateKey | e] eqn:Hkey; [| by intros [=]].
  destruct st as [f0 evs0 reqs lines outs].
  unfold ioutil_WriteFile, os_Remove, os_Create, File_Chmod, File_Write, bind, syscall.
  cbn [fs fs_events sent logged stdout].
  do 3 exec_step.
  destruct err1 as [e1 |]; cbn [fs fs_events sent logged stdout snd fst log_Printf ret];
    [by intros [=] |].
  exec_step.
  destruct err1 as [e1 |]; cbn [fs fs_events sent logged stdout snd fst log_Printf ret];
    [by intros [=] |].
  exec_step.
  destruct err1 as [e1 |]; cbn [fs fs_events sent logged stdout snd fst log_Printf ret];
    [by intros [=] |].
  destruct (ssh_NewPublicKey (Public privateKey)) as [pub | e] eqn:Hpub;
    cbn [fs fs_events sent logged stdout snd fst log_Printf ret]; [| by intros [=]].
  exec_step.
  destruct err1 as [e1 |]; cbn [fs fs_events sent logged stdout snd fst log_Printf ret];
    [by intros [=] |].
  exec_step.
  intros [= -> <- -> <-]. cbn [fs].
  apply fs_step_open_result in Hstep1 as ->.
  apply fs_step_chmod_result in Hstep2 as (fl2 & Hfl2 & ->).
  apply fs_step_write_result in Hstep3 as (fl3 & Hfl3 & ->).
  apply fs_step_open_result in Hstep4 as ->.
  apply fs_step_write_result in Hstep5 as (fl5 & Hfl5 & ->).
  rewrite lookup_insert_eq in Hfl2, Hfl3, Hfl5.
  injection Hfl2 as <-. injection Hfl3 as <-. injection Hfl5 as <-.
  pose proof (pub_path_differs privateKeyPath) as Hne.
  split; [reflexivity |]. split.
  - rewrite !lookup_insert_ne by done. rewrite lookup_insert_eq.
    unfold appended. simpl. by destruct (f1 !! privateKeyPath).
  - exists pub. split; [assumption |]. rewrite lookup_insert_eq.
    unfold appended. simpl. f_equal. by destruct (_ !! _).
Qed.

(** X1. When [genKeyPair] returns a key and no error, the private key
    file holds exactly the PEM encoding of that key with mode 0600,
    whatever was there before, and the file at the returned path
    [privateKeyPath + ".pub"] holds exactly the authorized-key line of
    its public key. *)
Theorem key_pair_on_disk privateKeyPath st signer pubKeyFilename st' :
  genKeyPair w privateKeyPath st = ((Some signer, pubKeyFilename, None), st') ->
  pubKeyFilename = privateKeyPath +:+ ".pub" /\
  fs st' !! privateKeyPath =
    Some {| mode := perm_0600;
            data := pem_EncodeToMemory w "RSA PRIVATE KEY"
                      (x509_MarshalPKCS1PrivateKey signer) |} /\
  exists sshPub,
    ssh_NewPublicKey (Public signer) = Ok sshPub /\
    data <$> fs st' !! pubKeyFilename = Some (ssh_MarshalAuthorizedKey sshPub).
Proof. apply genKeyPair_files. Qed.

(** X2. [genKeyPair] changes no file other than the private key file
    and the public key file, and sends no request. *)
Theorem key_pair_generation_is_confined privateKeyPath q st :
  q <> privateKeyPath ->
  q <> privateKeyPath +:+ ".pub" ->
  let st' := snd (genKeyPair w privateKeyPath st) in
  fs st' !! q = fs st !! q /\ sent st' = sent st.
Proof.
  intros Hpriv Hpub st'. split.
  - by apply genKeyPair_untouched.
  - apply genKeyPair_offline.
Qed.

(** X3. The old key pair is deleted before the new one is stored: when
    the two removals are not refused and the creation of the private
    key file fails, [genKeyPair] returns that error without a key and
    neither the private nor the public key file exists any more. *)
Theorem failed_creation_loses_the_old_key_pair privateKeyPath st privateKey n e :
  rsa_GenerateKey w = Ok privateKey ->
  os_fault w (OpRemove privateKeyPath) = None ->
  os_fault w (OpRemove (privateKeyPath +:+ ".pub")) = None ->
  os_fault w (OpOpen privateKeyPath perm_0666) = Some (n, e) ->
  let run := genKeyPair w privateKeyPath st in
  fst run = (None, "", Some e) /\
  fs (snd run) !! privateKeyPath = None /\
  fs (snd run) !! (privateKeyPath +:+ ".pub") = None.
Proof.
  intros Hkey Hremove Hremove_pub Hcreate run. subst run.
  unfold genKeyPair. rewrite Hkey.
  destruct st as [f0 evs0 reqs lines outs].
  unfold ioutil_WriteFile, os_Remove, os_Create, File_Chmod, File_Write, bind, syscall.
  cbn [fs fs_events sent logged stdout].
  do 3 exec_step.
  pose proof (fs_step_fault w _ f1 n e Hcreate) as Herr.
  pose proof (fs_step_fault_fs w _ f1 n e Hcreate ltac:(discriminate)) as Hfs.
  rewrite Hstep1 in Herr, Hfs. simpl in Herr, Hfs. subst err1 f2.
  cbn [fs fs_events sent logged stdout snd fst log_Printf ret].
  split; [reflexivity |].
  pose proof (fs_step_remove_result w _ _ _ _ Hremove Hstep) as Hgone.
  pose proof (fs_step_remove_result w _ _ _ _ Hremove_pub Hstep0) as Hgone_pub.
  split; [| assumption].
  rewrite <- Hgone.
  change f1 with (snd (err0, f1)). rewrite <- Hstep0.
  apply fs_step_other. simpl. apply pub_path_differs.
Qed.

End KeyPairResult.

Section Config.

Variable w : World.

(** X4. [loadVerifyConfigFile] returns no error exactly when the file
    can be read, the YAML parser accepts its content, and the string of
    URLs it gives is not empty; the configuration returned is then the
    parsed one.  Nothing else is checked: the URLs themselves are not
    looked at. *)
Theorem configuration_acceptance configFilename (f : gmap string File) config :
  loadVerifyConfigFile w configFilename f = (config, None) <->
  config_accepted w configFilename f config.
Proof.
  unfold loadVerifyConfigFile, config_accepted. split.
  - destruct (stat_IsNotExist w configFilename f); [by intros [=] |].
    destruct (ioutil_ReadFile w configFilename f) as [source | e]; [| by intros [=]].
    destruct (yaml_Unmarshal w source) as [parsed [e |]] eqn:Hparse; [by intros [=] |].
    destruct (String.length (Gen_Cert_URLS (Base parsed)) <? 1)%nat eqn:Hlen;
      [by intros [=] |].
    intros [= <-]. exists source. split; [done |]. split; [done |].
    intros Hempty. rewrite Hempty in Hlen. discriminate Hlen.
  - intros (source & Hread & Hparse & Hurls).
    assert (stat_IsNotExist w configFilename f = false) as ->.
    { unfold stat_IsNotExist, ioutil_ReadFile in *.
      destruct (os_fault w (OpStat configFilename)); [done |].
      destruct (os_fault w (OpReadFile configFilename)) as [[n e] |]; [done |].
      by destruct (f !! configFilename). }
    rewrite Hread, Hparse.
    destruct (Gen_Cert_URLS (Base config)); [done | reflexivity].
Qed.

End Config.

(** ** The list of candidates *)

Lemma strings_Split_cons s sep : exists piece pieces, strings_Split s sep = piece :: pieces.
Proof.
  destruct s as [| c s]; simpl; [by eexists _, _ |].
  destruct (Ascii.eqb c sep); [by eexists _, _ |].
  destruct (strings_Split s sep); by eexists _, _.
Qed.

Lemma strings_Split_concat s sep :
  String.concat (String sep "") (strings_Split s sep) = s.
Proof.
  induction s as [| c s IH]; [reflexivity |].
  destruct (strings_Split_cons s sep) as (piece & pieces & Hsplit).
  simpl. rewrite Hsplit in *.
  destruct (Ascii.eqb c sep) eqn:Hc.
  - apply Ascii.eqb_eq in Hc as ->.
    change (String sep (String.concat (String sep "") (piece :: pieces)) = String sep s).
    by rewrite IH.
  - destruct pieces as [| piece' pieces].
    + simpl in *. by rewrite IH.
    + change (String c (String.concat (String sep "") (piece :: piece' :: pieces))
              = String c s).
      by rewrite IH.
Qed.

Lemma strings_Split_pieces s sep :
  Forall (fun piece => occurs sep piece = false) (strings_Split s sep).
Proof.
  induction s as [| c s IH]; simpl; [by repeat constructor |].
  destruct (Ascii.eqb c sep) eqn:Hc; [by constructor |].
  destruct (strings_Split s sep) as [| piece pieces]; [by repeat constructor; simpl; rewrite Hc |].
  apply Forall_cons in IH as [Hpiece Hpieces].
  constructor; [| done]. simpl. by rewrite Hc.
Qed.

(** X5. The candidates that [main] takes from the configured string
    are its pieces between the commas, verbatim and in order: the list
    is never empty, no piece holds a comma, and the pieces joined by
    commas give the string back. *)
Theorem candidates_are_the_comma_separated_pieces s :
  let targetUrls := strings_Split s "," in
  targetUrls <> [] /\
  Forall (fun baseUrl => occurs "," baseUrl = false) targetUrls /\
  String.concat "," targetUrls = s.
Proof.
  intros targetUrls. subst targetUrls. split; [| split].
  - by destruct (strings_Split_cons s ",") as (piece & pieces & ->).
  - apply strings_Split_pieces.
  - apply strings_Split_concat.
Qed.

(** ** The shape of an attempt *)

Section Shape.

Variable w : World.
Variables (signer : rsa_PrivateKey) (userName : string) (password : bytes).
Variable tlsConfig : tls_Config.

Ltac run_it := unfold bind, log_Println, log_Printf, ret; cbn.

Ltac this_case := intros <-; run_it.

(** Every way an attempt can go, by the requests it sends: none, the
    login alone, the login and the X.509 request, or all three. *)
Lemma attempt_run_cases baseUrl r :
  attempt w signer userName password tlsConfig baseUrl quiet = r ->
  let login := loginRequest userName password baseUrl in
  (sent (snd r) = [] /\ exists e, fst r = (None, None, Some e))
  \/ (sent (snd r) = [login] /\ exists err, fst r = (None, None, err))
  \/ (exists loginResp derKey,
        client_Do w tlsConfig login = Ok loginResp /\
        opens_session loginResp /\
        x509_MarshalPKIXPublicKey (Public signer) = Ok derKey /\
        let x509Req :=
          certgenRequest baseUrl userName "x509" (Cookies loginResp)
            (string_of (pem_EncodeToMemory w "PUBLIC KEY" derKey)) in
        (sent (snd r) = [login; x509Req] /\ exists e, fst r = (None, None, Some e))
        \/ (exists sshPub,
              ssh_NewPublicKey (Public signer) = Ok sshPub /\
              let sshReq :=
                certgenRequest baseUrl userName "ssh" (Cookies loginResp)
                  (string_of (ssh_MarshalAuthorizedKey sshPub)) in
              sent (snd r) = [login; x509Req; sshReq] /\
              ((exists e, fst r = (None, None, Some e))
               \/ exists sshCert x509Cert, fst r = (sshCert, x509Cert, None)))).
Proof.
  intros Hrun login. revert Hrun.
  unfold attempt, getCertsFromServer, http_NewRequest.
  destruct (url_Parse_err w _) as [e |]; [this_case; left; eauto |].
  change (SetBasicAuth _ _ _) with login.
  rewrite bind_run. unfold Do at 1 2. cbn [fst snd].
  destruct (client_Do w tlsConfig login) as [loginResp | e] eqn:Hlogin;
    [| this_case; right; left; eauto].
  destruct (StatusCode loginResp =? 200)%Z eqn:Hstatus; cbn [negb];
    [| this_case; right; left; eauto].
  destruct (length (Cookies loginResp) <? 1)%nat eqn:Hcookies;
    [this_case; right; left; eauto |].
  assert (opens_session loginResp) as Hsession.
  { split; [by apply Z.eqb_eq |]. intros Hnone. by rewrite Hnone in Hcookies. }
  destruct (x509_MarshalPKIXPublicKey (Public signer)) as [derKey | e] eqn:Hder;
    [| this_case; right; left; eauto].
  rewrite bind_run.
  rewrite (doCertRequest_run w tlsConfig (Cookies loginResp) baseUrl userName "x509").
  cbv zeta.
  destruct (url_Parse_err w _) as [e |]; [this_case; right; left; eauto |].
  set (x509Req := certgenRequest baseUrl userName "x509" _ _).
  assert (forall r : option bytes * option bytes * option error * State,
             (sent (snd r) = [login; x509Req] /\ exists e, fst r = (None, None, Some e))
             \/ (exists sshPub,
                   ssh_NewPublicKey (Public signer) = Ok sshPub /\
                   let sshReq :=
                     certgenRequest baseUrl userName "ssh" (Cookies loginResp)
                       (string_of (ssh_MarshalAuthorizedKey sshPub)) in
                   sent (snd r) = [login; x509Req; sshReq] /\
                   ((exists e, fst r = (None, None, Some e))
                    \/ exists sshCert x509Cert, fst r = (sshCert, x509Cert, None))) ->
             (sent (snd r) = [] /\ exists e, fst r = (None, None, Some e))
             \/ (sent (snd r) = [login] /\ exists err, fst r = (None, None, err))
             \/ (exists loginResp0 derKey0,
                   Ok loginResp = Ok loginResp0 /\
                   opens_session loginResp0 /\
                   Ok derKey = Ok derKey0 /\
                   let x509Req0 :=
                     certgenRequest baseUrl userName "x509" (Cookies loginResp0)
                       (string_of (pem_EncodeToMemory w "PUBLIC KEY" derKey0)) in
                   (sent (snd r) = [login; x509Req0]
                    /\ exists e, fst r = (None, None, Some e))
                   \/ (exists sshPub,
                         ssh_NewPublicKey (Public signer) = Ok sshPub /\
                         let sshReq :=
                           certgenRequest baseUrl userName "ssh" (Cookies loginResp0)
                             (string_of (ssh_MarshalAuthorizedKey sshPub)) in
                         sent (snd r) = [login; x509Req0; sshReq] /\
                         ((exists e, fst r = (None, None, Some e))
                          \/ exists sshCert x509Cert,
                              fst r = (sshCert, x509Cert, None))))) as Hsession_case.
  { intros r0 Hr0. right; right. by exists loginResp, derKey. }
  destruct (client_Do w tlsConfig x509Req) as [x509Resp | e];
    [| intros <-; apply Hsession_case; run_it; left; eauto].
  assert (forall (x509Cert : option bytes) lines,
             match ssh_NewPublicKey (Public signer) with
             | Ok sshPub =>
                 let* (sshCert, err) :=
                   doCertRequest w tlsConfig (Cookies loginResp)
                     (baseUrl +:+ "/certgen/" +:+ userName +:+ "?type=ssh")
                     (string_of (ssh_MarshalAuthorizedKey sshPub)) in
                 match err with
                 | Some e => ret (None, None, Some e)
                 | None => ret (sshCert, x509Cert, None)
                 end
             | Err err => ret (None, None, Some err)
             end (emit [x509Req] lines (emit [login] [] quiet)) = r ->
             (sent (snd r) = [login; x509Req] /\ exists e, fst r = (None, None, Some e))
             \/ (exists sshPub,
                   ssh_NewPublicKey (Public signer) = Ok sshPub /\
                   let sshReq :=
                     certgenRequest baseUrl userName "ssh" (Cookies loginResp)
                       (string_of (ssh_MarshalAuthorizedKey sshPub)) in
                   sent (snd r) = [login; x509Req; sshReq] /\
                   ((exists e, fst r = (None, None, Some e))
                    \/ exists sshCert x509Cert, fst r = (sshCert, x509Cert, None))))
    as Hssh.
  { intros x509Cert lines.
    destruct (ssh_NewPublicKey (Public signer)) as [sshPub | e] eqn:Hpub;
      [| this_case; left; eauto].
    rewrite bind_run.
    rewrite (doCertRequest_run w tlsConfig (Cookies loginResp) baseUrl userName "ssh").
    cbv zeta.
    destruct (url_Parse_err w _) as [e |]; [this_case; left; eauto |].
    set (sshReq := certgenRequest baseUrl userName "ssh" _ _).
    assert (forall r : option bytes * option bytes * option error * State,
               sent (snd r) = [login; x509Req; sshReq] /\
               ((exists e, fst r = (None, None, Some e))
                \/ exists sshCert x509Cert0, fst r = (sshCert, x509Cert0, None)) ->
               (sent (snd r) = [login; x509Req]
                /\ exists e, fst r = (None, None, Some e))
               \/ (exists sshPub0,
                     Ok sshPub = Ok sshPub0 /\
                     let sshReq0 :=
                       certgenRequest baseUrl userName "ssh" (Cookies loginResp)
                         (string_of (ssh_MarshalAuthorizedKey sshPub0)) in
                     sent (snd r) = [login; x509Req; sshReq0] /\
                     ((exists e, fst r = (None, None, Some e))
                      \/ exists sshCert x509Cert0,
                          fst r = (sshCert, x509Cert0, None)))) as Hall.
    { intros r0 Hr0. right. by exists sshPub. }
    destruct (client_Do w tlsConfig sshReq) as [sshResp | e];
      [| intros <-; apply Hall; run_it; split; [done | left; eauto]].
    unfold ioutil_ReadAll.
    destruct (StatusCode sshResp =? 200)%Z; [destruct (RespBodyErr sshResp) |];
      intros <-; apply Hall; run_it; (split; [done |]); [left | right | right]; eauto. }
  unfold ioutil_ReadAll.
  destruct (StatusCode x509Resp =? 200)%Z; [destruct (RespBodyErr x509Resp) |];
    cbn [fst snd].
  - intros <-. apply Hsession_case. run_it. left. eauto.
  - intros Hrun. apply Hsession_case. by apply (Hssh _ _ Hrun).
  - intros Hrun. apply Hsession_case. by apply (Hssh _ _ Hrun).
Qed.

Lemma attempt_cases baseUrl :
  let login := loginRequest userName password baseUrl in
  let value := value_of (attempt w signer userName password tlsConfig baseUrl) in
  let requests := attempt_requests w signer userName password tlsConfig baseUrl in
  (requests = [] /\ exists e, value = (None, None, Some e))
  \/ (requests = [login] /\ exists err, value = (None, None, err))
  \/ (exists loginResp derKey,
        client_Do w tlsConfig login = Ok loginResp /\
        opens_session loginResp /\
        x509_MarshalPKIXPublicKey (Public signer) = Ok derKey /\
        let x509Req :=
          certgenRequest baseUrl userName "x509" (Cookies loginResp)
            (string_of (pem_EncodeToMemory w "PUBLIC KEY" derKey)) in
        (requests = [login; x509Req] /\ exists e, value = (None, None, Some e))
        \/ (exists sshPub,
              ssh_NewPublicKey (Public signer) = Ok sshPub /\
              let sshReq :=
                certgenRequest baseUrl userName "ssh" (Cookies loginResp)
                  (string_of (ssh_MarshalAuthorizedKey sshPub)) in
              requests = [login; x509Req; sshReq] /\
              ((exists e, value = (None, None, Some e))
               \/ exists sshCert x509Cert, value = (sshCert, x509Cert, None)))).
Proof. exact (attempt_run_cases baseUrl _ eq_refl). Qed.

(** X6. An attempt sends a certificate request only inside a session:
    whenever it sends a request other than the login, the login was
    answered with status 200 and at least one cookie. *)
Theorem certificate_requests_need_a_session baseUrl req :
  In req (attempt_requests w signer userName password tlsConfig baseUrl) ->
  req <> loginRequest userName password baseUrl ->
  exists loginResp,
    client_Do w tlsConfig (loginRequest userName password baseUrl) = Ok loginResp /\
    StatusCode loginResp = 200%Z /\
    Cookies loginResp <> [].
Proof.
  intros Hin Hne.
  destruct (attempt_cases baseUrl)
    as [[Hreqs _] | [[Hreqs _] | (loginResp & derKey & Hlogin & [Hstatus Hcookies] & _)]].
  - rewrite Hreqs in Hin. destruct Hin.
  - rewrite Hreqs in Hin. destruct Hin as [<- | []]. done.
  - by exists loginResp.
Qed.

(** X7. An attempt sends at most three requests, in the order login,
    X.509 request, SSH request, and only the login request carries the
    credentials. *)
Theorem attempt_sends_login_then_certificate_requests baseUrl :
  exists n x509Req sshReq,
    attempt_requests w signer userName password tlsConfig baseUrl =
      take n [loginRequest userName password baseUrl; x509Req; sshReq] /\
    URL x509Req = baseUrl +:+ "/certgen/" +:+ userName +:+ "?type=x509" /\
    URL sshReq = baseUrl +:+ "/certgen/" +:+ userName +:+ "?type=ssh" /\
    BasicAuth x509Req = None /\
    BasicAuth sshReq = None.
Proof.
  pose (anyX509 := certgenRequest baseUrl userName "x509" [] "").
  pose (anySsh := certgenRequest baseUrl userName "ssh" [] "").
  destruct (attempt_cases baseUrl)
    as [[Hreqs _] | [[Hreqs _] | (loginResp & derKey & _ & _ & Hder & Hcases)]].
  - by exists 0%nat, anyX509, anySsh.
  - by exists 1%nat, anyX509, anySsh.
  - cbv zeta in Hcases.
    destruct Hcases as [[Hreqs _] | (sshPub & _ & Hreqs & _)].
    + rewrite Hreqs. eexists 2%nat, _, anySsh.
      split; [reflexivity |]. by split_and!.
    + rewrite Hreqs. eexists 3%nat, _, _.
      split; [reflexivity |]. by split_and!.
Qed.

(** X8. An attempt that returns an error returns no certificate with
    it, neither the SSH nor the X.509 one. *)
Theorem failed_attempt_returns_no_certificate baseUrl e :
  attempt_error w signer userName password tlsConfig baseUrl = Some e ->
  value_of (attempt w signer userName password tlsConfig baseUrl) = (None, None, Some e).
Proof.
  unfold attempt_error. intros Herr.
  destruct (attempt_cases baseUrl)
    as [[_ [e' Hv]] | [[_ [err Hv]] | (? & ? & _ & _ & _ & Hcases)]].
  - rewrite Hv in *. simpl in Herr. congruence.
  - rewrite Hv in *. simpl in Herr. congruence.
  - cbv zeta in Hcases.
    destruct Hcases as [[_ [e' Hv]] | (? & _ & _ & [[e' Hv] | (? & ? & Hv)])];
      rewrite Hv in *; simpl in Herr; congruence.
Qed.

(** X9. [doCertRequest] returns bytes only from an answer with status
    200: whenever it returns a non-nil slice, it has sent exactly one
    request, a POST to the given URL with the given cookies, the answer
    had status 200, and the slice is the body of that answer. *)
Theorem certificate_bytes_come_from_a_200_answer authCookies url filedata cert :
  let request := doCertRequest w tlsConfig authCookies url filedata in
  fst (value_of request) = Some cert ->
  exists req resp,
    requests_of request = [req] /\
    Method req = "POST" /\
    URL req = url /\
    ReqCookies req = authCookies /\
    client_Do w tlsConfig req = Ok resp /\
    StatusCode resp = 200%Z /\
    RespBody resp = cert.
Proof.
  intros request. unfold value_of, requests_of.
  generalize (eq_refl (request quiet)).
  generalize (request quiet) at 2 3 4 as r. intros r Hrun. revert Hrun.
  unfold request, doCertRequest, createKeyBodyRequest, http_NewRequest.
  destruct (url_Parse_err w url) as [e |]; [by intros <- |].
  rewrite fold_AddCookie. cbn [Method URL BasicAuth ContentType ReqCookies Body
                               Header_Set_ContentType app].
  rewrite bind_run. unfold Do at 1 2. cbn [fst snd].
  match goal with
  | |- context [client_Do w tlsConfig ?q] => set (req := q)
  end.
  destruct (client_Do w tlsConfig req) as [resp | e] eqn:Hdo;
    [| intros <-; unfold bind, log_Printf, ret; by cbn].
  destruct (StatusCode resp =? 200)%Z eqn:Hstatus; cbn [negb];
    [| intros <-; unfold bind, log_Printf, ret; by cbn].
  intros <-. unfold ret, ioutil_ReadAll. cbn. intros [= <-].
  exists req, resp. apply Z.eqb_eq in Hstatus. by split_and!.
Qed.

End Shape.

Section Dichotomy.

Variable w : World.
Variables (signer : rsa_PrivateKey) (pubKeyFilename userName : string).
Variables (password : bytes) (rootCAs : option (list bytes)).

Local Abbreviation tlsConfig :=
  {| RootCAs := rootCAs; MinVersion := tls_VersionTLS12 |}.

(** X10. [getCertFromTargetUrls] ends in one of two ways.  Either no
    attempt ended without an error: every candidate was attempted and
    the result is a nil certificate with the error "Failed to get
    creds".  Or it stopped at the first candidate whose attempt ended
    without an error: the result is the SSH result of that attempt with
    a nil error, and the requests sent are those of the attempts up to
    and including that candidate.  In particular a certificate and an
    error are never returned together. *)
Theorem controller_outcomes targetUrls st :
  let run :=
    getCertFromTargetUrls w signer pubKeyFilename userName password
      targetUrls rootCAs st in
  (Forall (attempt_fails w signer userName password tlsConfig) targetUrls /\
   fst run = (None, Some (errors_New "Failed to get creds")) /\
   sent (snd run) =
     sent st ++ flat_map (attempt_requests w signer userName password tlsConfig)
                  targetUrls)
  \/
  (exists before baseUrl after,
      targetUrls = before ++ baseUrl :: after /\
      Forall (attempt_fails w signer userName password tlsConfig) before /\
      attempt_error w signer userName password tlsConfig baseUrl = None /\
      fst run = (attempt_cert w signer userName password tlsConfig baseUrl, None) /\
      sent (snd run) =
        sent st ++ flat_map (attempt_requests w signer userName password tlsConfig)
                     (before ++ [baseUrl])).
Proof.
  intros run. subst run.
  destruct (first_success_split w signer userName password tlsConfig targetUrls)
    as [Hall | (before & baseUrl & after & -> & Hbefore & Hok)].
  - left. rewrite (getCertFromTargetUrls_exhausted w signer pubKeyFilename userName
                     password rootCAs targetUrls st Hall).
    by split_and!.
  - right. exists before, baseUrl, after.
    rewrite (getCertFromTargetUrls_first w signer pubKeyFilename userName password
               rootCAs before baseUrl after st Hbefore Hok).
    by split_and!.
Qed.

End Dichotomy.

(** ** What [main] does in which order *)

Ltac fatal_end := unfold log_Fatal; rewrite ?bind_run; done.

Section Order.

Variable w : World.

(** The last steps of [main], once a certificate is there. *)
Lemma store_certificate_untouched certPath cert q :
  certPath <> q ->
  untouched q
    (log_Printf "Success" ;;
     os_Remove w certPath ;;
     let* err := ioutil_WriteFile w certPath cert perm_0644 in
     ret Returned).
Proof.
  intros Hq. unfold ioutil_WriteFile, os_Remove, File_Write. repeat frame_step.
Qed.

(** X11. When the configuration is accepted and the current user or
    the password cannot be obtained, [main] ends with that error as a
    fatal error, and it has touched no file (the old key pair is still
    there) and sent no request. *)
Theorem missing_credentials_are_fatal st config e :
  loadVerifyConfigFile w (flag_config w) (fs st) = (config, None) ->
  user_Current w = Err e \/
  (exists usr, user_Current w = Ok usr /\ gopass_GetPasswd w = Err e) ->
  let run := main w st in
  fst run = Fatal e /\
  fs (snd run) = fs st /\
  fs_events (snd run) = fs_events st /\
  sent (snd run) = sent st.
Proof.
  intros Hconfig Hcreds run. subst run. unfold main. rewrite Hconfig.
  rewrite bind_run. unfold getUserInfoAndCreds.
  destruct Hcreds as [Huser | (usr & Huser & Hpassword)]; rewrite Huser.
  - fatal_end.
  - rewrite Hpassword. fatal_end.
Qed.

(** X12. A run of [main] that does not return leaves the certificate
    file as it was: the file is removed and rewritten only after a
    certificate has been obtained.  (The key pair is replaced before
    that, so after a failed enrollment an old certificate stays beside
    a new key.) *)
Theorem failed_run_keeps_the_old_certificate st usr :
  user_Current w = Ok usr ->
  let run := main w st in
  let certPath :=
    filepath_Join w [HomeDir usr; "/.ssh/"; FILE_PREFIX] +:+ "-cert.pub" in
  fst run <> Returned ->
  fs (snd run) !! certPath = fs st !! certPath.
Proof.
  intros Huser run certPath. subst run. unfold main.
  destruct (loadVerifyConfigFile w (flag_config w) (fs st)) as [config [e |]];
    [done |].
  rewrite bind_run. unfold getUserInfoAndCreds. rewrite Huser.
  rewrite bind_run. cbn [fst snd].
  destruct (gopass_GetPasswd w) as [password | e]; [| fatal_end].
  cbn [ret fst snd getUserHomeDir].
  set (st1 := snd (fmt_Printf _ st)).
  set (privateKeyPath := filepath_Join w [HomeDir usr; "/.ssh/"; FILE_PREFIX]) in *.
  pose proof (genKeyPair_untouched w privateKeyPath certPath
                (cert_path_differs privateKeyPath)
                (cert_path_differs_pub privateKeyPath) st1) as Hkeys.
  change (fs st1) with (fs st) in Hkeys.
  rewrite bind_run.
  destruct (genKeyPair w privateKeyPath st1) as [[[signer pubKeyFilename] err] st2].
  cbn [fst snd] in *.
  destruct err as [e |]; [destruct signer; fatal_end |].
  destruct signer as [signer |]; [| done].
  rewrite bind_run.
  rewrite (getCertFromTargetUrls_network_only w signer pubKeyFilename (Username usr)
             password (strings_Split (Gen_Cert_URLS (Base config)) ",") None st2).
  cbn [fst snd].
  destruct (value_of _) as [[cert |] [e |]]; fatal_end.
Qed.

(** X13. [main] sends its first request only once the new key pair is
    on disk: in any run in which a request was sent, the private key
    file holds the PEM encoding of the generated key with mode 0600 and
    the public key file holds its authorized-key line, and they still
    do when [main] ends. *)
Theorem requests_follow_the_key_pair st :
  let run := main w st in
  sent (snd run) <> sent st ->
  exists usr signer sshPub,
    user_Current w = Ok usr /\
    rsa_GenerateKey w = Ok signer /\
    ssh_NewPublicKey (Public signer) = Ok sshPub /\
    let privateKeyPath := filepath_Join w [HomeDir usr; "/.ssh/"; FILE_PREFIX] in
    fs (snd run) !! privateKeyPath =
      Some {| mode := perm_0600;
              data := pem_EncodeToMemory w "RSA PRIVATE KEY"
                        (x509_MarshalPKCS1PrivateKey signer) |} /\
    data <$> fs (snd run) !! (privateKeyPath +:+ ".pub") =
      Some (ssh_MarshalAuthorizedKey sshPub).
Proof.
  intros run. subst run. unfold main.
  destruct (loadVerifyConfigFile w (flag_config w) (fs st)) as [config [e |]];
    [done |].
  rewrite bind_run. unfold getUserInfoAndCreds.
  destruct (user_Current w) as [usr | e] eqn:Huser; [| fatal_end].
  rewrite bind_run. cbn [fst snd].
  destruct (gopass_GetPasswd w) as [password | e]; [| fatal_end].
  cbn [ret fst snd getUserHomeDir].
  set (st1 := snd (fmt_Printf _ st)).
  set (privateKeyPath := filepath_Join w [HomeDir usr; "/.ssh/"; FILE_PREFIX]).
  pose proof (genKeyPair_offline w privateKeyPath st1) as Hoffline.
  rewrite bind_run.
  destruct (genKeyPair w privateKeyPath st1) as [[[signer pubKeyFilename] err] st2]
    eqn:Hgen.
  cbn [fst snd] in *.
  destruct err as [e |]; [destruct signer; fatal_end |].
  destruct signer as [signer |]; [| done].
  destruct (genKeyPair_success w privateKeyPath st1 signer pubKeyFilename st2 Hgen)
    as (sshPub' & evs & Hkey & _).
  destruct (genKeyPair_files w privateKeyPath st1 signer pubKeyFilename st2 Hgen)
    as (-> & Hprivate & sshPub & Hpub & Hpublic).
  intros _. exists usr, signer, sshPub. split_and!; try done; cbv zeta;
    fold privateKeyPath.
  - rewrite <- Hprivate. rewrite bind_run.
    rewrite (getCertFromTargetUrls_network_only w signer _ (Username usr)
               password (strings_Split (Gen_Cert_URLS (Base config)) ",") None st2).
    cbn [fst snd].
    destruct (value_of _) as [[cert |] [e |]]; try fatal_end.
    rewrite store_certificate_untouched; [done | apply cert_path_differs].
  - rewrite <- Hpublic. rewrite bind_run.
    rewrite (getCertFromTargetUrls_network_only w signer _ (Username usr)
               password (strings_Split (Gen_Cert_URLS (Base config)) ",") None st2).
    cbn [fst snd].
    destruct (value_of _) as [[cert |] [e |]]; try fatal_end.
    rewrite store_certificate_untouched; [done | apply cert_path_differs_pub].
Qed.


End Order.

(** ** What the enrollment leaves alone *)

Section Quiet.

Variable w : World.
Variables (signer : rsa_PrivateKey) (userName : string) (password : bytes).

(** X15. The failover controller works on the network and the log
    only: it changes no file, makes no file-system call and prints
    nothing. *)
Theorem enrollment_touches_no_file pubKeyFilename targetUrls rootCAs st :
  let st' :=
    snd (getCertFromTargetUrls w signer pubKeyFilename userName password
           targetUrls rootCAs st) in
  fs st' = fs st /\ fs_events st' = fs_events st /\ stdout st' = stdout st.
Proof.
  intros st'. subst st'.
  by rewrite (getCertFromTargetUrls_network_only w signer pubKeyFilename userName
                password targetUrls rootCAs st).
Qed.

Variable tlsConfig : tls_Config.

Ltac run_it := unfold bind, log_Println, log_Printf, ret; cbn.

Ltac lines_ok :=
  intros <-; run_it;
  repeat match goal with
         | |- Forall _ [] => constructor
         | |- Forall _ (_ :: _) => constructor
         end;
  unfold reported; eauto 8.

Lemma attempt_run_lines baseUrl r :
  attempt w signer userName password tlsConfig baseUrl quiet = r ->
  Forall (reported w tlsConfig) (logged (snd r)).
Proof.
  unfold attempt, getCertsFromServer, http_NewRequest.
  destruct (url_Parse_err w _) as [e |]; [lines_ok |].
  rewrite bind_run. unfold Do at 1 2. cbn [fst snd].
  match goal with
  | |- context [client_Do w tlsConfig ?q] => set (login := q)
  end.
  destruct (client_Do w tlsConfig login) as [loginResp | e] eqn:Hlogin; [| lines_ok].
  destruct (StatusCode loginResp =? 200)%Z; cbn [negb]; [| lines_ok].
  destruct (length (Cookies loginResp) <? 1)%nat; [lines_ok |].
  destruct (x509_MarshalPKIXPublicKey (Public signer)) as [derKey | e]; [| lines_ok].
  rewrite bind_run.
  rewrite (doCertRequest_run w tlsConfig (Cookies loginResp) baseUrl userName "x509").
  cbv zeta.
  destruct (url_Parse_err w _) as [e |]; [lines_ok |].
  set (x509Req := certgenRequest baseUrl userName "x509" _ _).
  destruct (client_Do w tlsConfig x509Req) as [x509Resp | e] eqn:Hx509; [| lines_ok].
  assert (forall (x509Cert : option bytes) lines,
             Forall (reported w tlsConfig) lines ->
             match ssh_NewPublicKey (Public signer) with
             | Ok sshPub =>
                 let* (sshCert, err) :=
                   doCertRequest w tlsConfig (Cookies loginResp)
                     (baseUrl +:+ "/certgen/" +:+ userName +:+ "?type=ssh")
                     (string_of (ssh_MarshalAuthorizedKey sshPub)) in
                 match err with
                 | Some e => ret (None, None, Some e)
                 | None => ret (sshCert, x509Cert, None)
                 end
             | Err err => ret (None, None, Some err)
             end (emit [x509Req] lines (emit [login] [] quiet)) = r ->
             Forall (reported w tlsConfig) (logged (snd r))) as Hssh.
  { intros x509Cert lines Hlines.
    destruct (ssh_NewPublicKey (Public signer)) as [sshPub | e];
      [| intros <-; exact Hlines].
    rewrite bind_run.
    rewrite (doCertRequest_run w tlsConfig (Cookies loginResp) baseUrl userName "ssh").
    cbv zeta.
    destruct (url_Parse_err w _) as [e |]; [intros <-; exact Hlines |].
    set (sshReq := certgenRequest baseUrl userName "ssh" _ _).
    destruct (client_Do w tlsConfig sshReq) as [sshResp | e] eqn:Hdo.
    - unfold ioutil_ReadAll.
      destruct (StatusCode sshResp =? 200)%Z; [destruct (RespBodyErr sshResp) |];
        intros <-; run_it; rewrite ?app_nil_r; try exact Hlines.
      apply Forall_app. split; [exact Hlines |].
      constructor; [| constructor]. unfold reported. eauto 8.
    - intros <-. run_it.
      apply Forall_app. split; [exact Hlines |].
      constructor; [| constructor]. unfold reported. eauto 8. }
  unfold ioutil_ReadAll.
  destruct (StatusCode x509Resp =? 200)%Z; [destruct (RespBodyErr x509Resp) |];
    cbn [fst snd].
  - lines_ok.
  - apply Hssh. constructor.
  - apply Hssh. constructor; [| constructor]. unfold reported. eauto 8.
Qed.

(** X16. Whatever an attempt writes to the log is one of its two fixed
    messages, the status line of an answer or the text of a transport
    error: the password is no part of what the program composes. *)
Theorem attempt_logs_only_what_the_network_reports baseUrl :
  Forall (reported w tlsConfig)
    (lines_of (attempt w signer userName password tlsConfig baseUrl)).
Proof. exact (attempt_run_lines baseUrl _ eq_refl). Qed.

End Quiet.

(** ** The further properties on concrete inputs *)

Section MoreRuns.

Import Sample Scenario.

Local Abbreviation pubKeyPath := "/home/alice/.ssh/fubar.pub".

Lemma key_pair_on_disk_witness :
  let w := world mask no_fault nobody in
  let st' := snd (genKeyPair w keyPath reboot) in
  fs st' !! keyPath =
    Some {| mode := perm_0600;
            data := armour "RSA PRIVATE KEY" (bytes_of "PKCS1") |} /\
  data <$> fs st' !! pubKeyPath = Some (bytes_of "ssh-rsa AAAA").
Proof.
  intros w st'.
  assert (genKeyPair w keyPath reboot = ((Some key, pubKeyPath, None), st')) as Hrun
    by (vm_compute; reflexivity).
  destruct (key_pair_on_disk w keyPath reboot key pubKeyPath st' Hrun)
    as (_ & Hprivate & sshPub & Hpub & Hpublic).
  split; [exact Hprivate |].
  injection Hpub as <-. exact Hpublic.
Defined.

Lemma key_pair_generation_is_confined_witness :
  let w := world mask no_fault nobody in
  let st' := snd (genKeyPair w keyPath reboot) in
  fs st' !! certPath = fs reboot !! certPath /\ sent st' = sent reboot.
Proof.
  intros w.
  apply (key_pair_generation_is_confined w keyPath certPath reboot); discriminate.
Defined.

Lemma failed_creation_loses_the_old_key_pair_witness :
  let w := world mask create_fails nobody in
  let run := genKeyPair w keyPath reboot in
  fs reboot !! keyPath = Some {| mode := perm_0600; data := bytes_of "OLD-KEY" |} /\
  fst run = (None, "", Some (errors_New "permission denied")) /\
  fs (snd run) !! keyPath = None /\
  fs (snd run) !! pubKeyPath = None.
Proof.
  intros w.
  split; [vm_compute; reflexivity |].
  exact (failed_creation_loses_the_old_key_pair w keyPath reboot key 0%nat
           (errors_New "permission denied") eq_refl eq_refl eq_refl eq_refl).
Defined.

Lemma certificate_requests_need_a_session_witness :
  let w := world mask no_fault net_healthy in
  exists loginResp,
    client_Do w tls (loginRequest "alice" secret "https://a") = Ok loginResp /\
    StatusCode loginResp = 200%Z /\
    Cookies loginResp <> [].
Proof.
  intros w.
  pose (req := certgenRequest "https://a" "alice" "ssh" session sshAuthFile).
  assert (In req (attempt_requests w key "alice" secret tls "https://a")) as Hin.
  { right. right. left. reflexivity. }
  assert (req <> loginRequest "alice" secret "https://a") as Hne by discriminate.
  exact (certificate_requests_need_a_session w key "alice" secret tls "https://a"
           req Hin Hne).
Defined.

Lemma failed_attempt_returns_no_certificate_witness :
  let w := world mask no_fault nobody in
  value_of (attempt w key "alice" secret tls "https://a")
    = (None, None, Some (errors_New "connection refused")).
Proof.
  intros w.
  exact (failed_attempt_returns_no_certificate w key "alice" secret tls "https://a"
           (errors_New "connection refused") eq_refl).
Defined.

Lemma certificate_bytes_come_from_a_200_answer_witness :
  let w := world mask no_fault net_healthy in
  exists req resp,
    requests_of
      (doCertRequest w tls session "https://a/certgen/alice?type=ssh" sshAuthFile)
      = [req] /\
    Method req = "POST" /\
    URL req = "https://a/certgen/alice?type=ssh" /\
    ReqCookies req = session /\
    client_Do w tls req = Ok resp /\
    StatusCode resp = 200%Z /\
    RespBody resp = bytes_of "CERT-A".
Proof.
  intros w.
  exact (certificate_bytes_come_from_a_200_answer w tls session
           "https://a/certgen/alice?type=ssh" sshAuthFile (bytes_of "CERT-A") eq_refl).
Defined.

Lemma missing_credentials_are_fatal_witness :
  let run := main world_without_user reboot in
  fst run = Fatal (errors_New "user: unknown userid 1000") /\
  fs (snd run) = fs reboot /\
  fs_events (snd run) = fs_events reboot /\
  sent (snd run) = sent reboot.
Proof.
  assert (loadVerifyConfigFile world_without_user (flag_config world_without_user)
            (fs reboot)
          = ({| Base := {| Gen_Cert_URLS := "https://a,https://b" |} |}, None))
    as Hconfig by (vm_compute; reflexivity).
  apply (missing_credentials_are_fatal world_without_user reboot _ _ Hconfig).
  left. reflexivity.
Defined.

Lemma failed_run_keeps_the_old_certificate_witness :
  let w := world mask no_fault nobody in
  let run := main w reboot in
  fs (snd run) !! certPath
    = Some {| mode := perm_0644; data := bytes_of "OLD-CERT" |}.
Proof.
  intros w run.
  assert (fst run <> Returned) as Hfailed by (vm_compute; discriminate).
  assert (fs reboot !! certPath
          = Some {| mode := perm_0644; data := bytes_of "OLD-CERT" |}) as Hold
    by (vm_compute; reflexivity).
  rewrite <- Hold.
  exact (failed_run_keeps_the_old_certificate w reboot alice eq_refl Hfailed).
Defined.

Lemma requests_follow_the_key_pair_witness :
  let w := world mask no_fault nobody in
  let run := main w reboot in
  fs (snd run) !! keyPath =
    Some {| mode := perm_0600;
            data := armour "RSA PRIVATE KEY" (bytes_of "PKCS1") |} /\
  data <$> fs (snd run) !! pubKeyPath = Some (bytes_of "ssh-rsa AAAA").
Proof.
  intros w run.
  assert (sent (snd run) <> sent reboot) as Hsent by (vm_compute; discriminate).
  destruct (requests_follow_the_key_pair w reboot Hsent)
    as (usr & signer & sshPub & Husr & Hkey & Hpub & Hprivate & Hpublic).
  injection Husr as <-. injection Hkey as <-. injection Hpub as <-.
  split; [exact Hprivate | exact Hpublic].
Defined.

End MoreRuns.
